(** * pyminthcm: the MintHCM API client and its module accessor

    A shallow embedding of [src/pyminthcm/mint_api.py]: the token
    life cycle and the retrying request dispatch of class [MintHCM], and the
    translation of structured calls into REST calls of class [Module].

    Conventions of the embedding.
    - A Python [str] is a [string]; its characters are the code points
      U+0000..U+00FF.
    - Code that raises is a computation returning [Raise e]; code that touches
      the session, the token file or the network is a function of the
      [World], which it returns updated, also when it raises.
    - The library functions the source imports and the repository does not
      define ([json.dumps], [json.loads], [urllib.parse.quote]) are the
      fields of the class [PyLib]. *)

From Stdlib Require Import ZArith String Ascii List Bool Lia.
From stdpp Require Import base option gmap strings list pretty.

Set Warnings "-register-all".
Open Scope string_scope.
Open Scope Z_scope.

(** ** Python values *)

(** The values a filter or a comparison carries: [None], [bool], [int],
    [float] and [str]. The code only formats a float, compares it with a
    [str] and looks it up in a [dict] with [str] keys: a float is given by
    the text [str()] makes of it. Lists and other values that cannot be
    hashed are not among the values. *)
Inductive Scalar : Type :=
| PyNone
| PyBool (b : bool)
| PyInt (z : Z)
| PyFloat (text : string)
| PyStr (s : string).

Global Instance Scalar_eq_dec : EqDecision Scalar.
Proof. solve_decision. Defined.

(** [str(v)], as the f-strings of the source format a value. *)
Definition py_str (v : Scalar) : string :=
  match v with
  | PyNone => "None"
  | PyBool true => "True"
  | PyBool false => "False"
  | PyInt z => pretty z
  | PyFloat text => text
  | PyStr s => s
  end.

(** [type(v).__name__]. *)
Definition py_type_name (v : Scalar) : string :=
  match v with
  | PyNone => "NoneType"
  | PyBool _ => "bool"
  | PyInt _ => "int"
  | PyFloat _ => "float"
  | PyStr _ => "str"
  end.

(** A JSON document, as [json.loads] returns it and [json.dumps] takes it.
    An object keeps the order of its keys. *)
Inductive Json : Type :=
| JNull
| JBool (b : bool)
| JNum (z : Z)
| JStr (s : string)
| JArr (items : list Json)
| JObj (members : list (string * Json)).

(** [type(j).__name__] of a parsed document. *)
Definition json_type_name (j : Json) : string :=
  match j with
  | JNull => "NoneType"
  | JBool _ => "bool"
  | JNum _ => "int"
  | JStr _ => "str"
  | JArr _ => "list"
  | JObj _ => "dict"
  end.

(** ** Exceptions *)

Inductive Exn : Type :=
| AuthenticationError (message : string) (code : option Z) (details : Json)
| RequestError (message : string) (code : option Z) (details : Json)
| KeyError (key : Scalar)
| IndexError
| AttributeError (message : string)
| FileNotFoundError
| OSError (message : string)
| JSONDecodeError
| UnicodeDecodeError
| TokenExpiredError
| InvalidClientError
| CustomOAuth2Error
| OtherError (message : string).

(** [isinstance(e, MintHCMError)]: the two error kinds of the client. *)
Definition is_MintHCMError (e : Exn) : bool :=
  match e with
  | AuthenticationError _ _ _ | RequestError _ _ _ => true
  | _ => false
  end.

Definition is_RequestError (e : Exn) : bool :=
  match e with RequestError _ _ _ => true | _ => false end.

Definition is_AuthenticationError (e : Exn) : bool :=
  match e with AuthenticationError _ _ _ => true | _ => false end.

Definition is_TokenExpiredError (e : Exn) : bool :=
  match e with TokenExpiredError => true | _ => false end.

(** [str(e)] of an exception, its message. *)
Definition exn_str (e : Exn) : string :=
  match e with
  | AuthenticationError m _ _ | RequestError m _ _ => m
  | KeyError k => py_str k
  | IndexError => "list index out of range"
  | AttributeError m | OSError m | OtherError m => m
  | FileNotFoundError => "No such file or directory"
  | JSONDecodeError => "Expecting value"
  | UnicodeDecodeError => "codec can't decode bytes"
  | TokenExpiredError => "(token_expired) "
  | InvalidClientError => "(invalid_client) "
  | CustomOAuth2Error => "(custom_error) "
  end.

(** [MintHCMError.__str__], on the attributes of the error; [details] is a
    [str], as the constructor declares it. A code that is [None] or [0] is
    false in [if self.code]. *)
Module MintHCMError.

Definition __str__ (message : string) (code : option Z) (details : string)
  : string :=
  let tail :=
    match details with
    | EmptyString => EmptyString
    | _ => "- " ++ details
    end in
  match code with
  | Some c =>
      if c =? 0 then "MintHCM API Error " ++ message ++ " " ++ tail
      else "MintHCM API Error (" ++ pretty c ++ "): " ++ message ++ " " ++ tail
  | None => "MintHCM API Error " ++ message ++ " " ++ tail
  end.

End MintHCMError.

Inductive Result (A : Type) : Type :=
| Ok (a : A)
| Raise (e : Exn).
Arguments Ok {A} a.
Arguments Raise {A} e.

(** ** String operations of Python *)

Module PyString.

Definition is_empty (s : string) : bool :=
  match s with EmptyString => true | String _ _ => false end.

(** [s.rstrip(c)] for a one-character argument. *)
Fixpoint rstrip (c : ascii) (s : string) : string :=
  match s with
  | EmptyString => EmptyString
  | String a s' =>
      let r := rstrip c s' in
      if is_empty r && Ascii.eqb a c then EmptyString else String a r
  end.

(** [s[:-n]]: the slice clamps at the start of the string. *)
Definition slice_to_neg (n : nat) (s : string) : string :=
  substring 0 (String.length s - n) s.

(** [s.split(c)] for a one-character separator. *)
Fixpoint split (c : ascii) (s : string) : list string :=
  match s with
  | EmptyString => [EmptyString]
  | String a s' =>
      if Ascii.eqb a c then EmptyString :: split c s'
      else match split c s' with
           | [] => [String a EmptyString]
           | h :: t => String a h :: t
           end
  end.

(** [sep.join(l)]. *)
Fixpoint join (sep : string) (l : list string) : string :=
  match l with
  | [] => EmptyString
  | [x] => x
  | x :: rest => x ++ sep ++ join sep rest
  end.

(** [c.isspace()] for the code points below 256. *)
Definition isspace (c : ascii) : bool :=
  let n := nat_of_ascii c in
  ((9 <=? n) && (n <=? 13) || (28 <=? n) && (n <=? 32)
   || (n =? 133) || (n =? 160))%nat.

Fixpoint lstrip_space (s : string) : string :=
  match s with
  | EmptyString => EmptyString
  | String a s' => if isspace a then lstrip_space s' else s
  end.

Fixpoint rstrip_space (s : string) : string :=
  match s with
  | EmptyString => EmptyString
  | String a s' =>
      let r := rstrip_space s' in
      if is_empty r && isspace a then EmptyString else String a r
  end.

(** [s.strip()]. *)
Definition strip (s : string) : string := rstrip_space (lstrip_space s).

(** [c in s]. *)
Fixpoint has_char (c : ascii) (s : string) : bool :=
  match s with
  | EmptyString => false
  | String a s' => Ascii.eqb a c || has_char c s'
  end.

(** [needle in hay], as a proposition. *)
Definition Contains (needle hay : string) : Prop :=
  exists pre post, hay = pre ++ needle ++ post.

(** [c.lower()] for the code points below 256: the letters A to Z, and the
    capital letters U+00C0 to U+00DE other than the multiplication sign
    U+00D7, move up by 32; every other character is its own lower case. *)
Definition lower_char (c : ascii) : ascii :=
  let n := nat_of_ascii c in
  if ((65 <=? n) && (n <=? 90)
      || (192 <=? n) && (n <=? 222) && negb (n =? 215))%nat
  then ascii_of_nat (n + 32) else c.

(** [s.lower()]. *)
Fixpoint lower (s : string) : string :=
  match s with
  | EmptyString => EmptyString
  | String a s' => String (lower_char a) (lower s')
  end.

(** [repr(b)] of bytes, as [str()] and an f-string format them: the quote
    is the apostrophe, or the double quote when the bytes hold an apostrophe
    and no double quote; the quote and the backslash are escaped, tab, line
    feed and carriage return are written [\t], [\n], [\r], and every other
    byte outside the printable ASCII characters is written [\x] and two
    hexadecimal digits. *)
Definition hex_lower (n : nat) : ascii :=
  nth n (list_ascii_of_string "0123456789abcdef") "0"%char.

Definition bytes_repr_char (quote c : ascii) : string :=
  let n := nat_of_ascii c in
  if Ascii.eqb c quote || Ascii.eqb c "\"%char
  then String "\" (String c EmptyString)
  else if (n =? 9)%nat then "\t"
  else if (n =? 10)%nat then "\n"
  else if (n =? 13)%nat then "\r"
  else if ((n <? 32) || (127 <=? n))%nat
  then String "\" (String "x" (String (hex_lower (n / 16))
                                 (String (hex_lower (n mod 16)) EmptyString)))
  else String c EmptyString.

Fixpoint bytes_repr_body (quote : ascii) (b : string) : string :=
  match b with
  | EmptyString => EmptyString
  | String c b' => bytes_repr_char quote c ++ bytes_repr_body quote b'
  end.

Definition bytes_repr (b : string) : string :=
  let quote :=
    if has_char "'" b && negb (has_char (ascii_of_nat 34) b)
    then ascii_of_nat 34 else "'"%char in
  String "b" (String quote (bytes_repr_body quote b ++ String quote EmptyString)).

End PyString.

Import PyString.

(** ** The filter translation of [Module.get] *)

(** A filter value: a plain scalar, or a [dict] (a structured comparison). *)
Inductive FilterValue : Type :=
| Plain (v : Scalar)
| Comparison (d : gmap string Scalar).

(** The table [operators] of [Module.get]. *)
Definition operators : gmap string string :=
  list_to_map
    [ ("=", "EQ"); ("<>", "NEQ"); (">", "GT"); (">=", "GTE"); ("<", "LT");
      ("<=", "LTE"); ("LIKE", "LIKE"); ("NOT LIKE", "NOT_LIKE"); ("IN", "IN");
      ("NOT IN", "NOT_IN") ].

(** [operators[k]]: only a [str] can be a key of the table. *)
Definition operators_getitem (k : Scalar) : Result string :=
  match k with
  | PyStr s => match operators !! s with
               | Some code => Ok code
               | None => Raise (KeyError k)
               end
  | _ => Raise (KeyError k)
  end.

(** [d[k]] on a [dict] with [str] keys. *)
Definition dict_getitem (d : gmap string Scalar) (k : string) : Result Scalar :=
  match d !! k with
  | Some v => Ok v
  | None => Raise (KeyError (PyStr k))
  end.

(** [v.split(",")]: only a [str] has the method. *)
Definition py_split (v : Scalar) : Result (list string) :=
  match v with
  | PyStr s => Ok (split "," s)
  | _ => Raise (AttributeError ("'" ++ py_type_name v
                                ++ "' object has no attribute 'split'"))
  end.

(** [values[i]]. *)
Definition list_getitem (values : list string) (i : nat) : Result string :=
  match values !! i with
  | Some v => Ok v
  | None => Raise IndexError
  end.

Definition bindR {A B} (r : Result A) (k : A -> Result B) : Result B :=
  match r with
  | Ok a => k a
  | Raise e => Raise e
  end.

Declare Scope result_scope.
Delimit Scope result_scope with result.
Notation "'let?' x ':=' r 'in' k" := (bindR r (fun x => k))
  (at level 10, x name, r at level 100, k at level 200) : result_scope.

(** What one turn of the loop over [filters.items()] appends to
    [filter_str]. *)
Definition filter_clause (field : string) (value : FilterValue)
  : Result string :=
  (match value with
   | Comparison d =>
       let? op := dict_getitem d "operator" in
       if decide (op = PyStr "BETWEEN") then
         let? v := dict_getitem d "value" in
         let? values := py_split v in
         let? v0 := list_getitem values 0 in
         let? v1 := list_getitem values 1 in
         Ok ("&filter[" ++ field ++ "][GT]=" ++ v0
             ++ "&filter[" ++ field ++ "][LT]=" ++ v1)
       else
         let? code := operators_getitem op in
         let? v := dict_getitem d "value" in
         Ok ("&filter[" ++ field ++ "][" ++ code ++ "]=" ++ py_str v)
   | Plain v => Ok ("&filter[" ++ field ++ "][EQ]=" ++ py_str v)
   end)%result.

(** The loop [for field, value in filters.items()]. *)
Fixpoint filter_loop (filter_str : string)
    (filters : list (string * FilterValue)) : Result string :=
  match filters with
  | [] => Ok filter_str
  | (field, value) :: rest =>
      match filter_clause field value with
      | Ok clause => filter_loop (filter_str ++ clause) rest
      | Raise e => Raise e
      end
  end.

(** The combinator after [if operator not in ["and", "or"]]. *)
Definition combinator (operator : string) : string :=
  if bool_decide (operator ∈ ["and"; "or"]) then operator else "and".

(** The local [url] of [Module.get] at the call [self.minthcm.get(url)]:
    everything the method computes before the request. *)
Definition get_url (baseurl module_name : string)
    (fields : option (list string)) (sort : option string)
    (operator : string) (filters : list (string * FilterValue))
  : Result string :=
  let fields_str :=
    match fields with
    | Some (f :: fs) => "?fields[" ++ module_name ++ "]=" ++ join "," (f :: fs)
    | _ => "?"
    end in
  let operator := combinator operator in
  let filter_str := "filter[operator]=" ++ operator in
  (let? filter_str := filter_loop filter_str filters in
   let url := baseurl ++ "/module/" ++ module_name ++ fields_str ++ "&"
              ++ filter_str in
   Ok (match sort with
       | Some (String c s) => url ++ "&sort=-" ++ String c s
       | _ => url
       end))%result.

(** ** The world of the client *)

(** What the session's request method does when it is called: a response
    with its status code and content, [TokenExpiredError], or another
    exception of the transport (neither [TokenExpiredError] nor
    [JSONDecodeError]). *)
Inductive NetOutcome : Type :=
| Response (status_code : Z) (content : string)
| RaiseTokenExpired
| RaiseTransport (message : string).

(** What [session.fetch_token] does: the token, [InvalidClientError],
    [CustomOAuth2Error], another exception once the request is under way, or
    an exception before anything is sent (a token URL that is not https). *)
Inductive FetchOutcome : Type :=
| FetchOk (token : Json)
| FetchInvalidClient
| FetchCustomOAuth2
| FetchRaise (message : string)
| FetchRefused (message : string).

(** What the client does to the outside, in order. [EvRequest] is a call of
    the session's request method; [data] is the [data=] argument of a call
    that has one. *)
Inductive Event : Type :=
| EvRequest (method url : string) (data : option string)
| EvFetchToken (token_url client_id client_secret : string)
| EvLogError (message : string).

Definition is_request (ev : Event) : bool :=
  match ev with EvRequest _ _ _ => true | _ => false end.

Definition is_fetch (ev : Event) : bool :=
  match ev with EvFetchToken _ _ _ => true | _ => false end.

(** The calls of the request method in a trace, and the token fetches. *)
Definition requests (tr : list Event) : list Event := List.filter is_request tr.
Definition fetches (tr : list Event) : list Event := List.filter is_fetch tr.

(** The world: the token file (the only file the client opens), the session
    ([session.token], [session.headers]), the [atexit] registrations, the
    remote ends as scripts (the outcome of the n-th call of a request method
    and of the n-th [fetch_token]), and the trace so far. *)
Record World : Type := mkWorld {
  w_file : option string;
  w_read_denied : bool;
  w_write_denied : bool;
  w_token : Json;
  w_headers : gmap string string;
  w_atexit : nat;
  w_net : nat -> NetOutcome;
  w_auth : nat -> FetchOutcome;
  w_trace : list Event
}.

Definition set_file (content : option string) (w : World) : World :=
  mkWorld content (w_read_denied w) (w_write_denied w) (w_token w)
    (w_headers w) (w_atexit w) (w_net w) (w_auth w) (w_trace w).

Definition set_token (token : Json) (w : World) : World :=
  mkWorld (w_file w) (w_read_denied w) (w_write_denied w) token
    (w_headers w) (w_atexit w) (w_net w) (w_auth w) (w_trace w).

Definition set_headers (h : gmap string string) (w : World) : World :=
  mkWorld (w_file w) (w_read_denied w) (w_write_denied w) (w_token w)
    h (w_atexit w) (w_net w) (w_auth w) (w_trace w).

Definition set_atexit (n : nat) (w : World) : World :=
  mkWorld (w_file w) (w_read_denied w) (w_write_denied w) (w_token w)
    (w_headers w) n (w_net w) (w_auth w) (w_trace w).

Definition emit (ev : Event) (w : World) : World :=
  mkWorld (w_file w) (w_read_denied w) (w_write_denied w) (w_token w)
    (w_headers w) (w_atexit w) (w_net w) (w_auth w) (w_trace w ++ [ev]).

(** ** Computations: state and exceptions *)

Definition M (A : Type) : Type := World -> Result A * World.

Definition ret {A} (a : A) : M A := fun w => (Ok a, w).
Definition raise {A} (e : Exn) : M A := fun w => (Raise e, w).

Definition bind {A B} (m : M A) (k : A -> M B) : M B :=
  fun w => match m w with
           | (Ok a, w') => k a w'
           | (Raise e, w') => (Raise e, w')
           end.

(** [try: m except: handler]. *)
Definition try_except {A} (m : M A) (handler : Exn -> M A) : M A :=
  fun w => match m w with
           | (Ok a, w') => (Ok a, w')
           | (Raise e, w') => handler e w'
           end.

Definition lift {A} (r : Result A) : M A := fun w => (r, w).

Global Instance M_ret : MRet M := @ret.
Global Instance M_bind : MBind M := fun A B k m => bind m k.

(** [open(path, "r").read()]. *)
Definition read_file : M string :=
  fun w =>
    if w_read_denied w then (Raise (OSError "Permission denied"), w)
    else match w_file w with
         | Some content => (Ok content, w)
         | None => (Raise FileNotFoundError, w)
         end.

(** [open(path, "w").write(content)], also for mode ["w+"]. *)
Definition write_file (content : string) : M unit :=
  fun w =>
    if w_write_denied w then (Raise (OSError "Permission denied"), w)
    else (Ok tt, set_file (Some content) w).

(** A call of the session's request method. *)
Definition session_call (method url : string) (data : option string)
  : M (Z * string) :=
  fun w =>
    let w' := emit (EvRequest method url data) w in
    match w_net w (List.length (requests (w_trace w))) with
    | Response status_code content => (Ok (status_code, content), w')
    | RaiseTokenExpired => (Raise TokenExpiredError, w')
    | RaiseTransport message => (Raise (OtherError message), w')
    end.

(** [session.fetch_token(token_url, client_id, client_secret)]. The library
    empties the token of the session before it sends the request, and on
    success the session keeps the new token. *)
Definition fetch_token (token_url client_id client_secret : string) : M Json :=
  fun w =>
    let w' := emit (EvFetchToken token_url client_id client_secret) w in
    match w_auth w (List.length (fetches (w_trace w))) with
    | FetchOk token => (Ok token, set_token token w')
    | FetchInvalidClient => (Raise InvalidClientError, set_token (JObj []) w')
    | FetchCustomOAuth2 => (Raise CustomOAuth2Error, set_token (JObj []) w')
    | FetchRaise message =>
        (Raise (OtherError message), set_token (JObj []) w')
    | FetchRefused message => (Raise (OtherError message), w')
    end.

(** The library functions of the source that the repository does not define.
    - [json.dumps], and [json.loads] on a [str] or on the bytes of a
      response: [None] where it raises. On a [str] it raises
      [JSONDecodeError]; on bytes it raises [UnicodeDecodeError] where
      [json_loads_unicode_error] holds and [JSONDecodeError] otherwise.
    - [bytes.decode()]: [None] where it raises [UnicodeDecodeError].
    - The setter of [session.token]: the message of the exception it raises
      for a value that is no token, [None] where it accepts the value.
    - [urllib.parse.quote(s, safe)]. *)
Class PyLib : Type := {
  json_dumps : Json -> string;
  json_loads : string -> option Json;
  quote : string -> string -> string;
  json_loads_unicode_error : string -> bool;
  bytes_decode : string -> option string;
  token_setter : Json -> option string
}.

(** [self.session.token = token]: the session keeps the value, and the
    setter raises when the value is no token. *)
Definition session_set_token `{PyLib} (token : Json) : M unit :=
  fun w =>
    match token_setter token with
    | None => (Ok tt, set_token token w)
    | Some message => (Raise (OtherError message), set_token token w)
    end.

(** [logging.error(f"Failed to decode JSON response: {response.content}")]:
    the content is formatted as bytes are. *)
Definition log_error (content : string) : M unit :=
  fun w =>
    (Ok tt,
     emit (EvLogError ("Failed to decode JSON response: "
                       ++ bytes_repr content)) w).

(** [json.loads] on a [str]. *)
Definition json_loads_M `{PyLib} (s : string) : M Json :=
  match json_loads s with
  | Some j => mret j
  | None => raise JSONDecodeError
  end.

(** [json.loads] on the bytes of a response. *)
Definition json_loads_bytes_M `{PyLib} (content : string) : M Json :=
  match json_loads content with
  | Some j => mret j
  | None =>
      if json_loads_unicode_error content then raise UnicodeDecodeError
      else raise JSONDecodeError
  end.

(** [content.decode()]. *)
Definition decode_M `{PyLib} (content : string) : M string :=
  match bytes_decode content with
  | Some text => mret text
  | None => raise UnicodeDecodeError
  end.

(** [d.get(k, default)] on a JSON object. *)
Fixpoint members_get (members : list (string * Json)) (k : string)
    (default : Json) : Json :=
  match members with
  | [] => default
  | (k', v) :: rest => if String.eqb k' k then v else members_get rest k default
  end.

(** [content.get("errors", {}).get("detail", "")]: only a [dict] has
    [get]. *)
Definition errors_detail (content : Json) : Result Json :=
  match content with
  | JObj members =>
      match members_get members "errors" (JObj []) with
      | JObj errors => Ok (members_get errors "detail" (JStr ""))
      | errors => Raise (AttributeError ("'" ++ json_type_name errors
                                         ++ "' object has no attribute 'get'"))
      end
  | _ => Raise (AttributeError ("'" ++ json_type_name content
                                ++ "' object has no attribute 'get'"))
  end.

(** ** class MintHCM *)

Module MintHCM.

(** The attributes [__init__] sets; none is assigned again. *)
Record t : Type := mk {
  baseurl : string;
  _client_id : string;
  _client_secret : string;
  _token_path : string;
  _logout_on_exit : bool;
  _user_agent : string
}.

(** The members of [HTTPMethod], a [str] enumeration. *)
Definition GET : string := "get".
Definition POST : string := "post".
Definition PATCH : string := "patch".
Definition DELETE : string := "delete".

(** [getattr(self.session, method)] succeeds: the request methods of a
    session. The other attributes of the session object are not modelled;
    for their names the model takes the [AttributeError] branch. *)
Definition session_hasattr (method : string) : bool :=
  bool_decide
    (method ∈ ["get"; "options"; "head"; "post"; "put"; "patch"; "delete"]).

Section Methods.
Context `{PyLib}.

Definition _load_token (self : t) : M (option bool) :=
  if is_empty (_token_path self) then mret (Some false)
  else
    try_except
      (content ← read_file;
       let token_data := strip content in
       if negb (is_empty token_data) then
         token ← json_loads_M token_data;
         session_set_token token;;
         mret (Some true)
       else mret None)
      (fun e =>
         match e with
         | FileNotFoundError | JSONDecodeError => mret (Some false)
         | _ => raise e
         end).

Definition _save_token (self : t) : M unit :=
  if is_empty (_token_path self) then mret tt
  else fun w => write_file (json_dumps (w_token w)) w.

(** The [token_url] of [_refresh_token]. *)
Definition token_url (self : t) : string :=
  slice_to_neg 2 (baseurl self) ++ "access_token".

Definition _refresh_token (self : t) : M unit :=
  try_except
    (fetch_token (token_url self) (_client_id self) (_client_secret self);;
     _save_token self)
    (fun e =>
       match e with
       | InvalidClientError =>
           raise (AuthenticationError "invalid API client ID or secret"
                    None (JStr ""))
       | CustomOAuth2Error =>
           raise (RequestError "error accessing MintHCM API" None (JStr ""))
       | e =>
           raise (RequestError ("failed to refresh token: " ++ exn_str e)
                    None (JStr ""))
       end).

(** [hasattr(self, "OAuth2Session")]: no attribute of that name is ever
    set on the object. *)
Definition hasattr_OAuth2Session (self : t) : bool := false.

(** [self.session = OAuth2Session(...)] and the update of its headers; a
    new session holds an empty token. The default headers of the library
    are left out. *)
Definition new_session (self : t) : M unit :=
  fun w =>
    (Ok tt,
     set_headers
       (<["Content-Type" := "application/json"]>
          (<["User-Agent" := _user_agent self]> ∅))
       (set_token (JObj []) w)).

Definition atexit_register : M unit :=
  fun w => (Ok tt, set_atexit (S (w_atexit w)) w).

(** The truth value of what [_load_token] returns. *)
Definition truthy (r : option bool) : bool :=
  match r with Some true => true | _ => false end.

(** The condition [self._token_path and self._load_token()]. *)
Definition token_path_and_load_token (self : t) : M bool :=
  if negb (is_empty (_token_path self)) then
    r ← _load_token self; mret (truthy r)
  else mret false.

Definition login_session (self : t) : M unit :=
  if negb (hasattr_OAuth2Session self) then
    new_session self;;
    loaded ← token_path_and_load_token self;
    if (loaded : bool) then mret tt else _refresh_token self
  else _refresh_token self.

Definition _login (self : t) : M unit :=
  login_session self;;
  if _logout_on_exit self then atexit_register else mret tt.

(** [MintHCM(client_id, client_secret, url, token_path, logout_on_exit)]. *)
Definition __init__ (client_id client_secret url token_path : string)
    (logout_on_exit : bool) : M t :=
  let self :=
    mk url client_id client_secret token_path logout_on_exit
      ("Mozilla/5.0 (Windows NT 10.0; Win64; x64) AppleWebKit/537.36 "
       ++ "(KHTML, like Gecko) Chrome/97.0.4692.99 Safari/537.36") in
  _login self;; mret self.

(** The [except] clauses of the loop of [_request]. [response] is the
    local of that name, unbound when the request method itself raised. *)
Definition request_handlers (self : t) (attempt : nat)
    (response : option (Z * string)) (e : Exn) : M (option Json) :=
  match e with
  | TokenExpiredError =>
      if (attempt =? 0)%nat then _refresh_token self;; mret None
      else raise (AuthenticationError "API token refresh failed"
                    None (JStr ""))
  | JSONDecodeError =>
      match response with
      | Some (status_code, content) =>
          log_error content;;
          text ← decode_M content;
          raise (RequestError "request failed" (Some status_code)
                   (JStr ("Invalid JSON response: " ++ text)))
      | None => raise (OtherError "UnboundLocalError")
      end
  | e =>
      if (attempt =? 1)%nat || negb (is_TokenExpiredError e) then raise e
      else mret None
  end.

(** The [try] block after [response = request_method(...)]. [None] is
    [continue]; [Some j] is [return j]. *)
Definition after_response (self : t) (attempt : nat)
    (response : Z * string) : M (option Json) :=
  let '(status_code, content) := response in
  if status_code =? 401 then
    if (attempt =? 0)%nat then _refresh_token self;; mret None
    else raise (AuthenticationError "authentication failed - token rejected"
                  (Some 401) (JStr ""))
  else if 400 <=? status_code then
    content ← json_loads_bytes_M content;
    error_details ← lift (errors_detail content);
    raise (RequestError "request failed" (Some status_code) error_details)
  else
    j ← json_loads_bytes_M content;
    mret (Some j).

(** The [data=] argument of the call of the request method: none when
    [method in [HTTPMethod.GET, HTTPMethod.DELETE]]. *)
Definition data_arg (method data : string) : option string :=
  if bool_decide (method ∈ [GET; DELETE]) then None else Some data.

(** One turn of [for attempt in range(2)]. *)
Definition request_attempt (self : t) (method url data : string)
    (attempt : nat) : M (option Json) :=
  fun w =>
    match session_call method url (data_arg method data) w with
    | (Raise e, w') => request_handlers self attempt None e w'
    | (Ok response, w') =>
        try_except (after_response self attempt response)
          (request_handlers self attempt (Some response)) w'
    end.

(** [for attempt in attempts: body] followed by [orelse]. *)
Fixpoint for_attempts (body : nat -> M (option Json)) (attempts : list nat)
    (orelse : M Json) : M Json :=
  match attempts with
  | [] => orelse
  | attempt :: rest =>
      r ← body attempt;
      match r : option Json with
      | Some j => mret j
      | None => for_attempts body rest orelse
      end
  end.

Definition _request (self : t) (url method : string)
    (payload : option Json) : M Json :=
  let url := rstrip "/" url in
  let url := quote url "/:?=&" in
  if negb (session_hasattr method) then
    raise (RequestError ("invalid HTTP method: " ++ method) None (JStr ""))
  else
    let data :=
      json_dumps (JObj [("data", default JNull payload)]) in
    for_attempts (request_attempt self method url data) (seq 0 2)
      (raise (RequestError "request failed after retrying" None (JStr ""))).

Definition _logout (self : t) : M unit :=
  _request self (baseurl self ++ "/logout") "post" None;;
  if negb (is_empty (_token_path self)) then
    try_except (write_file "") (fun _ => mret tt)
  else mret tt.

Definition get (self : t) (url : string) : M Json :=
  _request self url GET None.

Definition post (self : t) (url : string) (payload : Json) : M Json :=
  _request self url POST (Some payload).

Definition patch (self : t) (url : string) (payload : Json) : M Json :=
  _request self url PATCH (Some payload).

Definition delete (self : t) (url : string) : M Json :=
  _request self url DELETE None.

Definition get_modules_metadata (self : t) : M Json :=
  get self (baseurl self ++ "/meta/modules").

Definition get_user_preferences (self : t) (user_id : string) : M Json :=
  get self (baseurl self ++ "/user-preferences/" ++ user_id).

End Methods.

End MintHCM.

(** ** class Module *)

Module PyModule.

Record t : Type := mk {
  module_name : string;
  minthcm : MintHCM.t
}.

Section Methods.
Context `{PyLib}.

Definition create (self : t) (attributes : list (string * Json)) : M Json :=
  let data :=
    JObj [("type", JStr (module_name self));
          ("attributes", JObj attributes)] in
  MintHCM.post (minthcm self)
    (MintHCM.baseurl (minthcm self) ++ "/module") data.

Definition update (self : t) (record_id : string)
    (attributes : list (string * Json)) : M Json :=
  let data :=
    JObj [("type", JStr (module_name self)); ("id", JStr record_id);
          ("attributes", JObj attributes)] in
  MintHCM.patch (minthcm self)
    (MintHCM.baseurl (minthcm self) ++ "/module") data.

Definition delete (self : t) (record_id : string) : M Json :=
  let url := "/module/" ++ module_name self ++ "/" ++ record_id in
  MintHCM.delete (minthcm self) (MintHCM.baseurl (minthcm self) ++ url).

Definition fields (self : t) : M Json :=
  let url := "/meta/fields/" ++ module_name self in
  MintHCM.get (minthcm self) (MintHCM.baseurl (minthcm self) ++ url).

(** [Module.get]: the translation [get_url], in which the method can
    raise, and then the request. *)
Definition get (self : t) (fields : option (list string))
    (sort : option string) (operator : string)
    (filters : list (string * FilterValue)) : M Json :=
  url ← lift (get_url (MintHCM.baseurl (minthcm self)) (module_name self)
                fields sort operator filters);
  MintHCM.get (minthcm self) url.

Definition get_all_records (self : t) : M Json :=
  let url := "/module/" ++ module_name self in
  MintHCM.get (minthcm self) (MintHCM.baseurl (minthcm self) ++ url).

Definition get_relationship (self : t) (record_id related_module_name : string)
  : M Json :=
  let url := "/module/" ++ module_name self ++ "/" ++ record_id
             ++ "/relationships/" ++ lower related_module_name in
  MintHCM.get (minthcm self) (MintHCM.baseurl (minthcm self) ++ url).

Definition delete_relationship (self : t)
    (record_id related_module_name related_bean_id : string) : M Json :=
  let url := "/module/" ++ module_name self ++ "/" ++ record_id
             ++ "/relationships/" ++ lower related_module_name
             ++ "/" ++ related_bean_id in
  MintHCM.delete (minthcm self) (MintHCM.baseurl (minthcm self) ++ url).

End Methods.

End PyModule.

(** ** A sample library and sample worlds, for the examples *)

Module Sample.

Definition dquote : string := String (ascii_of_nat 34) EmptyString.

Definition hex_digit (n : nat) : ascii :=
  nth n (list_ascii_of_string "0123456789ABCDEF") "0"%char.

Definition percent (n : nat) : string :=
  String "%" (String (hex_digit (n / 16))
                (String (hex_digit (n mod 16)) EmptyString)).

Definition unreserved (c : ascii) : bool :=
  let n := nat_of_ascii c in
  ((48 <=? n) && (n <=? 57) || (65 <=? n) && (n <=? 90)
   || (97 <=? n) && (n <=? 122)
   || (n =? 45) || (n =? 46) || (n =? 95) || (n =? 126))%nat.

(** Percent-encoding of the UTF-8 bytes of every character that is neither
    unreserved nor in [safe]. *)
Fixpoint quote (s safe : string) : string :=
  match s with
  | EmptyString => EmptyString
  | String c s' =>
      let n := nat_of_ascii c in
      (if unreserved c || has_char c safe then String c EmptyString
       else if (n <? 128)%nat then percent n
       else percent (192 + n / 64) ++ percent (128 + n mod 64))
      ++ quote s' safe
  end.

(** A printer of JSON documents without escapes in strings. *)
Fixpoint dumps (j : Json) : string :=
  match j with
  | JNull => "null"
  | JBool true => "true"
  | JBool false => "false"
  | JNum z => pretty z
  | JStr s => dquote ++ s ++ dquote
  | JArr items =>
      "[" ++ join ", " (List.map dumps items) ++ "]"
  | JObj members =>
      "{" ++ join ", "
               (List.map (fun kv => dquote ++ fst kv ++ dquote ++ ": "
                                    ++ dumps (snd kv)) members)
      ++ "}"
  end.

Definition token : Json :=
  JObj [("access_token", JStr "abc"); ("token_type", JStr "Bearer");
        ("expires_in", JNum 3600)].

Definition record : Json :=
  JObj [("data", JObj [("type", JStr "Employees"); ("id", JStr "7")])].

(** The documents the sample parser knows: it inverts the printer on
    them and rejects every other text. *)
Definition documents : list Json :=
  [token; record; JObj []; JNull;
   JObj [("errors", JObj [("detail", JStr "boom")])]].

Definition loads (s : string) : option Json :=
  List.find (fun j => String.eqb (dumps j) s) documents.

(** The sample setter accepts JSON objects; the sample content is ASCII,
    which decodes to itself and raises no [UnicodeDecodeError]. *)
Definition setter (j : Json) : option string :=
  match j with
  | JObj _ => None
  | _ => Some "value is no token"
  end.

Definition lib : PyLib :=
  Build_PyLib dumps loads quote (fun _ => false) (fun b => Some b) setter.

Definition client : MintHCM.t :=
  MintHCM.mk "https://hcm.example/api/V8" "id" "secret" "AccessToken.json"
    false "UA".

Definition employees : PyModule.t := PyModule.mk "Employees" client.

(** A world with no token file, a given server script and a given
    authorization script. *)
Definition world (file : option string) (net : nat -> NetOutcome)
    (auth : nat -> FetchOutcome) : World :=
  mkWorld file false false (JObj []) ∅ 0%nat net auth [].

Definition ok_server (_ : nat) : NetOutcome := Response 200 (dumps record).
Definition ok_auth (_ : nat) : FetchOutcome := FetchOk token.

(** A server that answers 401 to every request, one that answers 500 with
    an error document, and an authorization server that cannot be
    reached. *)
Definition server_401 (_ : nat) : NetOutcome := Response 401 "".
Definition server_500 (_ : nat) : NetOutcome :=
  Response 500 (dumps (JObj [("errors", JObj [("detail", JStr "boom")])])).
Definition auth_down (_ : nat) : FetchOutcome :=
  FetchRaise "connection refused".

Definition w_ok : World := world (Some (dumps token)) ok_server ok_auth.
Definition w_401 : World := world (Some (dumps token)) server_401 ok_auth.
Definition w_401_auth_down : World :=
  world (Some (dumps token)) server_401 auth_down.
Definition w_500 : World := world (Some (dumps token)) server_500 ok_auth.
Definition w_no_file : World := world None ok_server ok_auth.
Definition w_blank_file : World := world (Some "  ") ok_server ok_auth.

(** The comparisons [{operator: "BETWEEN", value: "18,65"}],
    [{operator: ">", value: 30}] and [{operator: "~=", value: "30"}]. *)
Definition between_18_65 : gmap string Scalar :=
  <["operator" := PyStr "BETWEEN"]> (<["value" := PyStr "18,65"]> ∅).
Definition above_30 : gmap string Scalar :=
  <["operator" := PyStr ">"]> (<["value" := PyInt 30]> ∅).
Definition approx_30 : gmap string Scalar :=
  <["operator" := PyStr "~="]> (<["value" := PyStr "30"]> ∅).

Definition module_url : string := "https://hcm.example/api/V8/module".

(** Servers that answer 404 with the document [null], 200 with a text that
    is no JSON, 401 to the first request only; a transport that fails, and
    one that finds the token expired. *)
Definition server_404_null (_ : nat) : NetOutcome := Response 404 "null".
Definition server_html (_ : nat) : NetOutcome := Response 200 "<html>".
Definition server_401_once (n : nat) : NetOutcome :=
  match n with O => Response 401 "" | S _ => Response 200 (dumps record) end.
Definition server_timeout (_ : nat) : NetOutcome := RaiseTransport "timed out".
Definition server_expired (_ : nat) : NetOutcome := RaiseTokenExpired.

Definition w_404_null : World := world None server_404_null ok_auth.
Definition w_html : World := world None server_html ok_auth.
Definition w_401_once : World := world None server_401_once ok_auth.
Definition w_timeout : World := world None server_timeout ok_auth.
Definition w_expired_auth_down : World := world None server_expired auth_down.
Definition w_unreadable : World :=
  mkWorld (Some (dumps token)) true false (JObj []) ∅ 0%nat ok_server ok_auth
    [].

(** The comparisons [{operator: "BETWEEN", value: "18,65,99"}],
    [{operator: "BETWEEN", value: "18"}], [{operator: "BETWEEN", value: 18}]
    and [{value: "30"}]. *)
Definition between_number : gmap string Scalar :=
  <["operator" := PyStr "BETWEEN"]> (<["value" := PyInt 18]> ∅).
Definition between_three : gmap string Scalar :=
  <["operator" := PyStr "BETWEEN"]> (<["value" := PyStr "18,65,99"]> ∅).
Definition between_one : gmap string Scalar :=
  <["operator" := PyStr "BETWEEN"]> (<["value" := PyStr "18"]> ∅).
Definition no_operator : gmap string Scalar := <["value" := PyStr "30"]> ∅.

End Sample.

(** ** Vocabulary of the statements *)

(** [w'] is [w] after the events [evs]: the trace has grown by them, and the
    scripts of the remote ends and the access rights to the token file are
    the same. *)
Definition extends (w w' : World) (evs : list Event) : Prop :=
  w_trace w' = (w_trace w ++ evs)%list
  /\ w_net w' = w_net w /\ w_auth w' = w_auth w
  /\ w_write_denied w' = w_write_denied w
  /\ w_read_denied w' = w_read_denied w.

(** The next token fetch returns a token and the token can be saved. *)
Definition refresh_succeeds (self : MintHCM.t) (w : World) : bool :=
  match w_auth w (List.length (fetches (w_trace w))) with
  | FetchOk _ => is_empty (MintHCM._token_path self) || negb (w_write_denied w)
  | _ => false
  end.

(** An outcome after which [_request] refreshes the token: status 401 or
    [TokenExpiredError]. *)
Definition is_retry_trigger (o : NetOutcome) : bool :=
  match o with
  | Response status_code _ => status_code =? 401
  | RaiseTokenExpired => true
  | RaiseTransport _ => false
  end.

(** The outcome of the next call of a request method in [w]. *)
Definition next_outcome (w : World) : NetOutcome :=
  w_net w (List.length (requests (w_trace w))).

(** The event of the token fetch of a client. *)
Definition fetch_event `{PyLib} (self : MintHCM.t) : Event :=
  EvFetchToken (MintHCM.token_url self) (MintHCM._client_id self)
    (MintHCM._client_secret self).

(** The event of a request of [_request self url method payload]: the
    sanitized URL and the serialized payload. *)
Definition request_event `{PyLib} (url method : string)
    (payload : option Json) : Event :=
  EvRequest method (quote (rstrip "/" url) "/:?=&")
    (MintHCM.data_arg method
       (json_dumps (JObj [("data", default JNull payload)]))).

(** The world in which [_login] loads the token: the one of the call, with
    a new session. *)
Definition with_new_session (self : MintHCM.t) (w : World) : World :=
  snd (MintHCM.new_session self w).

(** How [_request] ends after an outcome [o] that triggers no refresh:
    the parsed content of a response below 400, an error when that does not
    parse, an error for a status from 400 on, and the exception of the
    transport as it is. [logs] are the events after the request. *)
Definition final_result `{PyLib} (o : NetOutcome) (r : Result Json)
    (logs : list Event) : Prop :=
  match o with
  | Response status content =>
      if status <? 400 then
        match json_loads content with
        | Some j => r = Ok j /\ logs = []
        | None => exists e, r = Raise e
        end
      else exists e, r = Raise e
  | RaiseTokenExpired => False
  | RaiseTransport message => r = Raise (OtherError message) /\ logs = []
  end.

(** Whether a JSON document is an object. *)
Definition is_object (j : Json) : bool :=
  match j with JObj _ => true | _ => false end.

(** Whether a computation has returned. *)
Definition is_Ok {A} (r : Result A) : bool :=
  match r with Ok _ => true | Raise _ => false end.

(** A filter value that [Module.get] can translate: a plain scalar; a
    [BETWEEN] comparison whose value is a [str] with a comma; or a comparison
    with an operator of the table and a value. *)
Definition well_formed (value : FilterValue) : bool :=
  match value with
  | Plain _ => true
  | Comparison d =>
      match d !! "operator" with
      | Some (PyStr op) =>
          if String.eqb op "BETWEEN" then
            match d !! "value" with
            | Some (PyStr s) => has_char "," s
            | _ => false
            end
          else
            match operators !! op, d !! "value" with
            | Some _, Some _ => true
            | _, _ => false
            end
      | _ => false
      end
  end.

(** * Properties *)

(** ** Strings *)

#[local] Arguments String.append !s1 s2 : simpl nomatch.

Section StringFacts.

Lemma append_assoc (a b c : string) : (a ++ b) ++ c = a ++ b ++ c.
Proof. induction a as [|x a IH]; [reflexivity | simpl; f_equal; exact IH]. Qed.

Lemma append_nil_r (a : string) : a ++ "" = a.
Proof. induction a as [|x a IH]; [reflexivity | simpl; f_equal; exact IH]. Qed.

Lemma Contains_refl (s : string) : Contains s s.
Proof. exists "", "". simpl. now rewrite append_nil_r. Qed.

Lemma Contains_app_l (n p h : string) : Contains n h -> Contains n (p ++ h).
Proof.
  intros (pre & post & ->). exists (p ++ pre), post.
  now rewrite append_assoc.
Qed.

Lemma Contains_app_r (n h q : string) : Contains n h -> Contains n (h ++ q).
Proof.
  intros (pre & post & ->). exists pre, (post ++ q).
  now rewrite !append_assoc.
Qed.

Lemma Contains_trans (a b c : string) :
  Contains a b -> Contains b c -> Contains a c.
Proof.
  intros Hab (pre & post & ->).
  now apply Contains_app_l, Contains_app_r.
Qed.

Lemma split_no_sep (c : ascii) (s : string) :
  has_char c s = false -> split c s = [s].
Proof.
  induction s as [|a s IH]; simpl; [reflexivity |].
  intros Hs. apply orb_false_iff in Hs as [Ha Hs].
  rewrite Ha, (IH Hs). reflexivity.
Qed.

Lemma split_app (c : ascii) (a b : string) :
  has_char c a = false -> split c (a ++ String c b) = a :: split c b.
Proof.
  induction a as [|x a IH]; simpl.
  - intros _. now rewrite Ascii.eqb_refl.
  - intros Hs. apply orb_false_iff in Hs as [Hx Hs].
    rewrite Hx, (IH Hs). reflexivity.
Qed.

(** Python's [(a + "," + b).split(",")] for two values without a comma. *)
Lemma split_two (a b : string) :
  has_char "," a = false -> has_char "," b = false ->
  split "," (a ++ "," ++ b) = [a; b].
Proof.
  intros Ha Hb. change ("," ++ b) with (String "," b).
  now rewrite (split_app _ _ _ Ha), (split_no_sep _ _ Hb).
Qed.

Lemma rstrip_app (c : ascii) (s t : string) :
  is_empty (rstrip c t) = false -> rstrip c (s ++ t) = s ++ rstrip c t.
Proof.
  intros Ht. induction s as [|a s IH]; simpl; [reflexivity |].
  rewrite IH. destruct (rstrip c t); [discriminate |].
  destruct s; reflexivity.
Qed.

Lemma substring_prefix (p q : string) :
  substring 0 (String.length p) (p ++ q) = p.
Proof.
  induction p as [|a p IH]; simpl.
  - destruct q; reflexivity.
  - now rewrite IH.
Qed.

Lemma length_append (p q : string) :
  String.length (p ++ q) = (String.length p + String.length q)%nat.
Proof. induction p as [|a p IH]; [reflexivity | simpl; f_equal; exact IH]. Qed.

(** [s[:-2]] removes the last two characters. *)
Lemma slice_to_neg_2 (p : string) (c1 c2 : ascii) :
  slice_to_neg 2 (p ++ String c1 (String c2 "")) = p.
Proof.
  unfold slice_to_neg. rewrite length_append. simpl String.length.
  replace (String.length p + 2 - 2)%nat with (String.length p) by lia.
  apply substring_prefix.
Qed.

(** [s[:-2]] of a string of fewer than two characters is empty. *)
Lemma slice_to_neg_short (s : string) :
  (String.length s < 2)%nat -> slice_to_neg 2 s = "".
Proof.
  unfold slice_to_neg. intros Hs.
  replace (String.length s - 2)%nat with 0%nat by lia.
  destruct s; reflexivity.
Qed.

End StringFacts.

(** ** The filter translation *)

Section FilterFacts.

Lemma filter_loop_cons (acc f : string) (v : FilterValue)
    (l : list (string * FilterValue)) :
  filter_loop acc ((f, v) :: l)
  = match filter_clause f v with
    | Ok clause => filter_loop (acc ++ clause) l
    | Raise e => Raise e
    end.
Proof. reflexivity. Qed.

Lemma filter_loop_app (acc : string) (l1 l2 : list (string * FilterValue)) :
  filter_loop acc (l1 ++ l2)
  = bindR (filter_loop acc l1) (fun s => filter_loop s l2).
Proof.
  revert acc. induction l1 as [|[f v] l1 IH]; intros acc; simpl.
  - reflexivity.
  - destruct (filter_clause f v); [apply IH | reflexivity].
Qed.

Lemma filter_loop_extends (acc s : string) (l : list (string * FilterValue)) :
  filter_loop acc l = Ok s -> exists t, s = acc ++ t.
Proof.
  revert acc. induction l as [|[f v] l IH]; intros acc; simpl.
  - intros [= <-]. exists "". now rewrite append_nil_r.
  - destruct (filter_clause f v) as [c|e]; [|discriminate].
    intros Hl. destruct (IH _ Hl) as [t ->].
    exists (c ++ t). now rewrite append_assoc.
Qed.

(** A successful loop has appended the clause of each of its filters. *)
Lemma filter_loop_member (acc s f : string) (v : FilterValue)
    (l : list (string * FilterValue)) :
  (f, v) ∈ l -> filter_loop acc l = Ok s ->
  exists c, filter_clause f v = Ok c /\ Contains c s.
Proof.
  intros Hin Hl.
  apply list_elem_of_split in Hin as (l1 & l2 & ->).
  rewrite filter_loop_app in Hl.
  destruct (filter_loop acc l1) as [s1|e]; [|discriminate].
  simpl in Hl. destruct (filter_clause f v) as [c|e]; [|discriminate].
  exists c. split; [reflexivity |].
  destruct (filter_loop_extends _ _ _ Hl) as [t ->].
  exists s1, t. now rewrite append_assoc.
Qed.

(** The loop raises what the clause of one of its filters raises. *)
Lemma filter_loop_raise (acc : string) (e : Exn)
    (l : list (string * FilterValue)) :
  filter_loop acc l = Raise e ->
  exists f v, (f, v) ∈ l /\ filter_clause f v = Raise e.
Proof.
  revert acc. induction l as [|[f v] l IH]; intros acc; simpl.
  - discriminate.
  - destruct (filter_clause f v) as [c|e'] eqn:Hc.
    + intros Hl. destruct (IH _ Hl) as (f' & v' & Hin & Hr).
      exists f', v'. split; [now right | exact Hr].
    + intros [= <-]. exists f, v. split; [now left | exact Hc].
Qed.

(** The loop fails as soon as the clause of one filter does. *)
Lemma filter_loop_fails (acc f : string) (v : FilterValue) (e : Exn)
    (l : list (string * FilterValue)) :
  (f, v) ∈ l -> filter_clause f v = Raise e ->
  exists e', filter_loop acc l = Raise e'.
Proof.
  intros Hin Hc. destruct (filter_loop acc l) as [s|e'] eqn:Hl.
  - destruct (filter_loop_member _ _ _ _ _ Hin Hl) as (c & Hc' & _).
    congruence.
  - now exists e'.
Qed.

(** The loop succeeds when the clause of every filter does. *)
Lemma filter_loop_total (acc : string) (l : list (string * FilterValue)) :
  Forall (fun fv => exists c, filter_clause fv.1 fv.2 = Ok c) l ->
  exists s, filter_loop acc l = Ok s.
Proof.
  intros Hall. revert acc.
  induction Hall as [|[f v] l [c Hc] _ IH]; intros acc; simpl.
  - now exists acc.
  - simpl in Hc. rewrite Hc. apply IH.
Qed.

(** The translation raises built-in errors only. *)
Lemma filter_clause_raises (f : string) (v : FilterValue) (e : Exn) :
  filter_clause f v = Raise e -> is_MintHCMError e = false.
Proof.
  unfold filter_clause. destruct v as [v|d]; [discriminate |].
  unfold dict_getitem, operators_getitem, py_split, list_getitem, bindR.
  repeat (case_match; simplify_eq; try discriminate);
    intros [= <-]; reflexivity.
Qed.

(** The shape of the URL: the part before the filters, the result of the
    loop, and the sort. *)
Lemma get_url_shape (baseurl module_name operator url : string)
    (fields : option (list string)) (sort : option string)
    (filters : list (string * FilterValue)) :
  get_url baseurl module_name fields sort operator filters = Ok url ->
  exists head s tail,
    filter_loop ("filter[operator]=" ++ combinator operator) filters = Ok s
    /\ url = head ++ s ++ tail.
Proof.
  unfold get_url, bindR.
  set (fs := match fields with Some (_ :: _) => _ | _ => _ end).
  destruct (filter_loop _ filters) as [s|e]; [|discriminate].
  intros Hu. assert (Hurl := f_equal (fun r => match r with
                                               | Ok u => u
                                               | Raise _ => url
                                               end) Hu).
  cbv beta iota in Hurl. clear Hu. subst url.
  exists (baseurl ++ "/module/" ++ module_name ++ fs ++ "&"), s.
  destruct sort as [[|c t]|].
  - exists "". split; [reflexivity |].
    rewrite ?append_assoc, ?append_nil_r. reflexivity.
  - exists ("&sort=-" ++ String c t). split; [reflexivity |].
    rewrite ?append_assoc. reflexivity.
  - exists "". split; [reflexivity |].
    rewrite ?append_assoc, ?append_nil_r. reflexivity.
Qed.

Lemma get_url_member (baseurl module_name operator url f : string)
    (v : FilterValue) (fields : option (list string)) (sort : option string)
    (filters : list (string * FilterValue)) :
  (f, v) ∈ filters ->
  get_url baseurl module_name fields sort operator filters = Ok url ->
  exists c, filter_clause f v = Ok c /\ Contains c url.
Proof.
  intros Hin Hu.
  destruct (get_url_shape _ _ _ _ _ _ _ Hu) as (hd & s & tl & Hl & ->).
  destruct (filter_loop_member _ _ _ _ _ Hin Hl) as (c & Hc & Hcs).
  exists c. split; [exact Hc |].
  now apply Contains_app_l, Contains_app_r.
Qed.

Lemma get_url_total (baseurl module_name operator : string)
    (fields : option (list string)) (sort : option string)
    (filters : list (string * FilterValue)) :
  Forall (fun fv => exists c, filter_clause fv.1 fv.2 = Ok c) filters ->
  exists url,
    get_url baseurl module_name fields sort operator filters = Ok url.
Proof.
  intros Hall. unfold get_url.
  destruct (filter_loop_total ("filter[operator]=" ++ combinator operator)
              _ Hall) as [s ->].
  simpl. eauto.
Qed.

Lemma operators_NoDup :
  NoDup
    (fst <$> [ ("=", "EQ"); ("<>", "NEQ"); (">", "GT"); (">=", "GTE");
               ("<", "LT"); ("<=", "LTE"); ("LIKE", "LIKE");
               ("NOT LIKE", "NOT_LIKE"); ("IN", "IN"); ("NOT IN", "NOT_IN") ]).
Proof. apply (bool_decide_unpack _). vm_compute. exact I. Qed.

(** The table [operators] holds the ten pairs, and nothing else. *)
Lemma operators_lookup (op code : string) :
  operators !! op = Some code <->
  (op, code) ∈ [ ("=", "EQ"); ("<>", "NEQ"); (">", "GT"); (">=", "GTE");
                 ("<", "LT"); ("<=", "LTE"); ("LIKE", "LIKE");
                 ("NOT LIKE", "NOT_LIKE"); ("IN", "IN"); ("NOT IN", "NOT_IN") ].
Proof.
  unfold operators. symmetry. apply elem_of_list_to_map, operators_NoDup.
Qed.

End FilterFacts.

(** ** The session manager *)

Ltac unfold_M :=
  unfold mbind, M_bind, bind, mret, M_ret, ret, raise, lift, try_except in *.

Section SessionFacts.
Context `{PyLib}.

Lemma extends_refl (w : World) : extends w w [].
Proof. unfold extends. now rewrite app_nil_r. Qed.

Lemma extends_trans (w1 w2 w3 : World) (evs1 evs2 : list Event) :
  extends w1 w2 evs1 -> extends w2 w3 evs2 ->
  extends w1 w3 (evs1 ++ evs2)%list.
Proof.
  unfold extends. intros (-> & -> & -> & -> & ->) (-> & -> & -> & -> & ->).
  now rewrite <- app_assoc.
Qed.

Lemma extends_emit (w : World) (ev : Event) : extends w (emit ev w) [ev].
Proof. unfold extends. now simpl. Qed.

Lemma requests_app (tr evs : list Event) :
  requests (tr ++ evs) = (requests tr ++ requests evs)%list.
Proof. apply List.filter_app. Qed.

Lemma fetches_app (tr evs : list Event) :
  fetches (tr ++ evs) = (fetches tr ++ fetches evs)%list.
Proof. apply List.filter_app. Qed.

(** A token refresh fetches once, at the token URL of the client, and
    raises one of the two errors of the client when the fetch or the save
    fails. *)
Lemma _refresh_token_spec (self : MintHCM.t) (w : World) :
  exists r w',
    MintHCM._refresh_token self w = (r, w')
    /\ extends w w' [fetch_event self]
    /\ if refresh_succeeds self w then r = Ok tt
       else exists e, r = Raise e /\ is_MintHCMError e = true.
Proof.
  unfold MintHCM._refresh_token, MintHCM._save_token, fetch_token,
    refresh_succeeds, write_file, fetch_event.
  unfold_M.
  destruct (w_auth w _) as [tok| | |msg|msg]; simpl.
  - destruct (is_empty (MintHCM._token_path self)); simpl.
    + eexists _, _. repeat split; reflexivity.
    + destruct (w_write_denied w) eqn:Hd; simpl.
      * eexists _, _. split; [reflexivity |]. split; [|eauto].
        repeat split; simpl; auto.
      * eexists _, _. repeat split; reflexivity.
  - eexists _, _. split; [reflexivity |]. split; [repeat split | eauto].
  - eexists _, _. split; [reflexivity |]. split; [repeat split | eauto].
  - eexists _, _. split; [reflexivity |]. split; [repeat split | eauto].
  - eexists _, _. split; [reflexivity |]. split; [repeat split | eauto].
Qed.

Lemma refresh_succeeds_emit (self : MintHCM.t) (w : World)
    (method url : string) (data : option string) :
  refresh_succeeds self (emit (EvRequest method url data) w)
  = refresh_succeeds self w.
Proof.
  unfold refresh_succeeds. simpl. rewrite fetches_app. simpl.
  now rewrite app_nil_r.
Qed.

Lemma errors_detail_raises (j : Json) (e : Exn) :
  errors_detail j = Raise e -> exists message, e = AttributeError message.
Proof.
  unfold errors_detail. destruct j; try (intros [= <-]; eauto).
  destruct (members_get _ _ _); intros [= <-]; eauto.
Qed.

(** One turn of the loop of [_request], by the outcome of its call of the
    request method. *)
Lemma request_attempt_spec (self : MintHCM.t) (method url data : string)
    (attempt : nat) (w w' : World) (r : Result (option Json)) :
  MintHCM.request_attempt self method url data attempt w = (r, w') ->
  let ev := EvRequest method url (MintHCM.data_arg method data) in
  if is_retry_trigger (next_outcome w) then
    match attempt with
    | O =>
        extends w w' [ev; fetch_event self]
        /\ if refresh_succeeds self w then r = Ok None
           else exists e, r = Raise e /\ is_MintHCMError e = true
    | S _ =>
        extends w w' [ev]
        /\ exists e,
             r = Raise e /\ is_AuthenticationError e = true
             /\ forall c, next_outcome w = Response 401 c ->
                   e = AuthenticationError
                         "authentication failed - token rejected"
                         (Some 401) (JStr "")
    end
  else
    exists logs,
      extends w w' (ev :: logs)
      /\ requests logs = [] /\ fetches logs = []
      /\ match next_outcome w with
         | Response status content =>
             if status <? 400 then
               match json_loads content with
               | Some j => r = Ok (Some j) /\ logs = []
               | None => exists e, r = Raise e
               end
             else exists e, r = Raise e
         | RaiseTokenExpired => False
         | RaiseTransport message => r = Raise (OtherError message) /\ logs = []
         end.
Proof.
  intros Hrun ev. subst ev.
  unfold next_outcome, MintHCM.request_attempt, session_call in *.
  set (ev := EvRequest method url (MintHCM.data_arg method data)) in *.
  destruct (w_net w _) as [status content| |message] eqn:Ho; simpl.
  - unfold try_except, MintHCM.after_response in Hrun.
    destruct (status =? 401) eqn:H401.
    + destruct attempt as [|k]; simpl in Hrun.
      * unfold_M.
        destruct (_refresh_token_spec self (emit ev w))
          as (r0 & w0 & Hr & Hext & Hres).
        rewrite Hr in Hrun. unfold ev in Hres.
        rewrite refresh_succeeds_emit in Hres.
        split.
        { assert (w' = w0) as ->.
          { destruct r0; [now inversion Hrun |].
            destruct (refresh_succeeds self w); [discriminate |].
            destruct Hres as (e' & [= ->] & He').
            destruct e'; try discriminate; simpl in Hrun;
              now inversion Hrun. }
          apply (extends_trans w (emit ev w) w0 [ev] [fetch_event self]);
            [apply extends_emit | exact Hext]. }
        destruct (refresh_succeeds self w).
        { subst r0. now inversion Hrun. }
        destruct Hres as (e' & -> & He'). exists e'. split; [|exact He'].
        destruct e'; try discriminate; simpl in Hrun; now inversion Hrun.
      * unfold_M. simpl in Hrun. rewrite orb_true_r in Hrun.
        inversion Hrun; subst.
        split; [apply extends_emit |].
        eexists. split; [reflexivity |]. split; [reflexivity |].
        intros c _. reflexivity.
    + assert (Hext1 : extends w (emit ev w) [ev]) by apply extends_emit.
      assert (Hext2 : forall message,
                 extends w (emit (EvLogError message) (emit ev w))
                   [ev; EvLogError message]).
      { intros message.
        apply (extends_trans w (emit ev w) _ [ev] [EvLogError message]);
          [exact Hext1 | apply extends_emit]. }
      unfold json_loads_bytes_M in Hrun.
      destruct (400 <=? status) eqn:H400;
        (destruct (status <? 400) eqn:Hlt; [try lia | try lia]);
        destruct (json_loads content) as [j|]; unfold_M; simpl in Hrun.
      * destruct (errors_detail j) as [d|e] eqn:Hd; simpl in Hrun.
        { rewrite orb_true_r in Hrun. unfold_M.
          inversion Hrun; subst. exists []. eauto 6. }
        { apply errors_detail_raises in Hd as [message ->]. simpl in Hrun.
          rewrite orb_true_r in Hrun. unfold_M.
          inversion Hrun; subst. exists []. eauto 6. }
      * destruct (json_loads_unicode_error content); simpl in Hrun.
        { rewrite orb_true_r in Hrun. unfold_M.
          inversion Hrun; subst. exists []. eauto 6. }
        unfold log_error, decode_M in Hrun. unfold_M.
        destruct (bytes_decode content); simpl in Hrun;
          inversion Hrun; subst; eexists [_]; eauto 6.
      * inversion Hrun; subst. exists []. eauto 6.
      * destruct (json_loads_unicode_error content); simpl in Hrun.
        { rewrite orb_true_r in Hrun. unfold_M.
          inversion Hrun; subst. exists []. eauto 6. }
        unfold log_error, decode_M in Hrun. unfold_M.
        destruct (bytes_decode content); simpl in Hrun;
          inversion Hrun; subst; eexists [_]; eauto 6.
  - destruct attempt as [|k]; simpl in Hrun.
    + unfold_M.
      destruct (_refresh_token_spec self (emit ev w))
        as (r0 & w0 & Hr & Hext & Hres).
      rewrite Hr in Hrun. unfold ev in Hres.
      rewrite refresh_succeeds_emit in Hres.
      split.
      { assert (w' = w0) as ->.
        { destruct r0; now inversion Hrun. }
        apply (extends_trans w (emit ev w) w0 [ev] [fetch_event self]);
          [apply extends_emit | exact Hext]. }
      destruct (refresh_succeeds self w).
      { subst r0. now inversion Hrun. }
      destruct Hres as (e' & -> & He'). exists e'. split; [|exact He'].
      now inversion Hrun.
    + unfold_M. inversion Hrun; subst.
      split; [apply extends_emit |].
      eexists. split; [reflexivity |]. split; [reflexivity |].
      intros c [=].
  - simpl in Hrun. rewrite orb_true_r in Hrun. unfold_M.
    inversion Hrun; subst.
    exists []. split; [apply extends_emit | auto].
Qed.

Lemma _request_invalid_method (self : MintHCM.t) (url method : string)
    (payload : option Json) (w : World) :
  MintHCM.session_hasattr method = false ->
  MintHCM._request self url method payload w
  = (Raise (RequestError ("invalid HTTP method: " ++ method) None (JStr "")),
     w).
Proof. intros Hm. unfold MintHCM._request. now rewrite Hm. Qed.

Lemma next_outcome_extends (w w' : World) (evs : list Event) :
  extends w w' evs ->
  next_outcome w'
  = w_net w (List.length (requests (w_trace w))
             + List.length (requests evs))%nat.
Proof.
  intros (Ht & Hn & _). unfold next_outcome.
  now rewrite Hn, Ht, requests_app, length_app.
Qed.

(** What a call of [_request] with a valid method does, by the outcomes
    of its requests and of its token refresh. *)
Lemma _request_spec (self : MintHCM.t) (url method : string)
    (payload : option Json) (w w' : World) (r : Result Json) :
  MintHCM.session_hasattr method = true ->
  MintHCM._request self url method payload w = (r, w') ->
  let ev := request_event url method payload in
  let o2 := w_net w (S (List.length (requests (w_trace w)))) in
  if is_retry_trigger (next_outcome w) then
    if refresh_succeeds self w then
      exists logs,
        extends w w' (ev :: fetch_event self :: ev :: logs)
        /\ requests logs = [] /\ fetches logs = []
        /\ if is_retry_trigger o2 then
             logs = []
             /\ exists e,
                  r = Raise e /\ is_AuthenticationError e = true
                  /\ forall c, o2 = Response 401 c ->
                        e = AuthenticationError
                              "authentication failed - token rejected"
                              (Some 401) (JStr "")
           else final_result o2 r logs
    else
      extends w w' [ev; fetch_event self]
      /\ exists e, r = Raise e /\ is_MintHCMError e = true
  else
    exists logs,
      extends w w' (ev :: logs)
      /\ requests logs = [] /\ fetches logs = []
      /\ final_result (next_outcome w) r logs.
Proof.
  intros Hm Hrun ev o2. unfold MintHCM._request in Hrun.
  rewrite Hm in Hrun. simpl in Hrun. unfold_M.
  fold (request_event url method payload) in *.
  destruct (MintHCM.request_attempt _ _ _ _ 0 w) as [r1 w1] eqn:H1.
  apply request_attempt_spec in H1. simpl in H1.
  fold (request_event url method payload) in H1. fold ev in H1.
  destruct (is_retry_trigger (next_outcome w)) eqn:Htrig.
  - destruct H1 as [Hext1 Hres1].
    destruct (refresh_succeeds self w).
    + subst r1.
      destruct (MintHCM.request_attempt _ _ _ _ 1 w1) as [r2 w2] eqn:H2.
      apply request_attempt_spec in H2. simpl in H2.
      fold (request_event url method payload) in H2. fold ev in H2.
      rewrite (next_outcome_extends _ _ _ Hext1) in H2. simpl in H2.
      replace (List.length (requests (w_trace w)) + 1)%nat
        with (S (List.length (requests (w_trace w)))) in H2 by lia.
      fold o2 in H2.
      destruct (is_retry_trigger o2) eqn:Htrig2.
      * destruct H2 as (Hext2 & e & -> & He & Hc).
        inversion Hrun; subst. exists []. split.
        { apply (extends_trans w w1 w' [ev; fetch_event self] [ev]);
            assumption. }
        repeat split; eauto.
      * destruct H2 as (logs & Hext2 & Hreq & Hfet & Hfin).
        assert (w2 = w') as ->.
        { destruct r2 as [[j|]|e]; now inversion Hrun. }
        exists logs. split.
        { apply (extends_trans w w1 w' [ev; fetch_event self] (ev :: logs));
            assumption. }
        split; [exact Hreq |]. split; [exact Hfet |].
        unfold final_result.
        destruct o2 as [status content| |message].
        -- destruct (status <? 400).
           ++ destruct (json_loads content).
              ** destruct Hfin as [-> ->]. now inversion Hrun.
              ** destruct Hfin as [e ->]. inversion Hrun. eauto.
           ++ destruct Hfin as [e ->]. inversion Hrun. eauto.
        -- exact Hfin.
        -- destruct Hfin as [-> ->]. now inversion Hrun.
    + destruct Hres1 as (e & -> & He). inversion Hrun; subst. eauto.
  - destruct H1 as (logs & Hext1 & Hreq & Hfet & Hfin).
    exists logs. split; [|split; [exact Hreq | split; [exact Hfet |]]].
    + destruct r1 as [[j|]|e];
        [inversion Hrun; subst; assumption | |
         inversion Hrun; subst; assumption].
      exfalso. destruct (next_outcome w) as [status content| |message].
      * destruct (status <? 400); [destruct (json_loads content) |].
        -- now destruct Hfin.
        -- now destruct Hfin.
        -- now destruct Hfin.
      * exact Hfin.
      * now destruct Hfin.
    + unfold final_result.
      destruct (next_outcome w) as [status content| |message].
      * destruct (status <? 400).
        -- destruct (json_loads content).
           ++ destruct Hfin as [-> ->]. now inversion Hrun.
           ++ destruct Hfin as [e ->]. inversion Hrun. eauto.
        -- destruct Hfin as [e ->]. inversion Hrun. eauto.
      * exact Hfin.
      * destruct Hfin as [-> ->]. now inversion Hrun.
Qed.

(** Every call of [_request] makes at most two requests and at most one
    token fetch; the requests are the same one, and the fetch is at the
    token URL of the client. *)
Lemma _request_events (self : MintHCM.t) (url method : string)
    (payload : option Json) (w w' : World) (r : Result Json) :
  MintHCM._request self url method payload w = (r, w') ->
  exists evs,
    extends w w' evs
    /\ (requests evs = [] /\ fetches evs = []
        \/ requests evs = [request_event url method payload]
           /\ (fetches evs = [] \/ fetches evs = [fetch_event self])
        \/ requests evs = [request_event url method payload;
                           request_event url method payload]
           /\ fetches evs = [fetch_event self]
           /\ is_retry_trigger (next_outcome w) = true).
Proof.
  intros Hrun.
  destruct (MintHCM.session_hasattr method) eqn:Hm.
  - apply _request_spec in Hrun; [|exact Hm]. simpl in Hrun.
    destruct (is_retry_trigger (next_outcome w)).
    + destruct (refresh_succeeds self w).
      * destruct Hrun as (logs & Hext & Hreq & Hfet & _).
        eexists. split; [exact Hext |]. right. right.
        unfold requests, fetches in *. simpl. rewrite Hreq, Hfet. auto.
      * destruct Hrun as (Hext & _).
        eexists. split; [exact Hext |]. right. left.
        unfold requests, fetches. simpl. auto.
    + destruct Hrun as (logs & Hext & Hreq & Hfet & _).
      eexists. split; [exact Hext |]. right. left.
      unfold requests, fetches in *. simpl. rewrite Hreq, Hfet. auto.
  - rewrite _request_invalid_method in Hrun by exact Hm.
    inversion Hrun; subst. exists []. split; [apply extends_refl | auto].
Qed.

(** *** Loading the persisted token *)

Lemma _load_token_missing (self : MintHCM.t) (w : World) :
  is_empty (MintHCM._token_path self) = false ->
  w_read_denied w = false -> w_file w = None ->
  MintHCM._load_token self w = (Ok (Some false), w).
Proof.
  intros Hp Hd Hf. unfold MintHCM._load_token, read_file. unfold_M.
  now rewrite Hp, Hd, Hf.
Qed.

Lemma _load_token_blank (self : MintHCM.t) (w : World) (content : string) :
  is_empty (MintHCM._token_path self) = false ->
  w_read_denied w = false -> w_file w = Some content ->
  is_empty (strip content) = true ->
  MintHCM._load_token self w = (Ok None, w).
Proof.
  intros Hp Hd Hf Hs. unfold MintHCM._load_token, read_file. unfold_M.
  now rewrite Hp, Hd, Hf, Hs.
Qed.




(** Loading a token makes no request and no fetch. *)
Lemma _load_token_frame (self : MintHCM.t) (w w' : World)
    (r : Result (option bool)) :
  MintHCM._load_token self w = (r, w') -> extends w w' [].
Proof.
  unfold MintHCM._load_token, read_file, json_loads_M, session_set_token.
  unfold_M.
  destruct (is_empty (MintHCM._token_path self)).
  { intros [= <- <-]. apply extends_refl. }
  destruct (w_read_denied w).
  { intros [= <- <-]. apply extends_refl. }
  destruct (w_file w) as [content|].
  - simpl. destruct (is_empty (strip content)); simpl.
    + intros [= <- <-]. apply extends_refl.
    + destruct (json_loads (strip content)) as [token|]; simpl;
        try destruct (token_setter token); simpl;
        intros [= <- <-]; unfold extends; simpl;
        now rewrite app_nil_r.
  - intros [= <- <-]. apply extends_refl.
Qed.

Lemma with_new_session_extends (self : MintHCM.t) (w : World) :
  extends w (with_new_session self w) [].
Proof. unfold extends. simpl. now rewrite app_nil_r. Qed.


(** [_login] when the token is not loaded and loading does not raise: one
    fetch, at the token URL. *)
Lemma _login_not_loaded (self : MintHCM.t) (w w1 : World)
    (loaded : option bool) :
  is_empty (MintHCM._token_path self) = false ->
  MintHCM._load_token self (with_new_session self w) = (Ok loaded, w1) ->
  MintHCM.truthy loaded = false ->
  exists r w', MintHCM._login self w = (r, w')
               /\ extends w w' [fetch_event self]
               /\ if refresh_succeeds self w then r = Ok tt
                  else exists e, r = Raise e /\ is_MintHCMError e = true.
Proof.
  intros Hp Hl Ht. pose proof (_load_token_frame _ _ _ _ Hl) as Hext.
  pose proof (with_new_session_extends self w) as Hext0.
  pose proof (extends_trans _ _ _ _ _ Hext0 Hext) as Hext1.
  destruct (_refresh_token_spec self w1) as (r0 & w2 & Hr & Hext2 & Hres).
  pose proof (extends_trans _ _ _ _ _ Hext1 Hext2) as Hext3.
  assert (Hsame : refresh_succeeds self w1 = refresh_succeeds self w).
  { unfold refresh_succeeds. destruct Hext1 as (-> & _ & -> & -> & _).
    now rewrite app_nil_r. }
  rewrite Hsame in Hres.
  unfold MintHCM._login, MintHCM.login_session,
    MintHCM.token_path_and_load_token, MintHCM.hasattr_OAuth2Session,
    MintHCM.atexit_register.
  unfold with_new_session in Hl. unfold_M. simpl in *.
  rewrite Hp. simpl. rewrite Hl, Ht, Hr.
  destruct r0 as [[]|e].
  - destruct (MintHCM._logout_on_exit self); eexists _, _;
      (split; [reflexivity |]); (split; [exact Hext3 |]);
      destruct (refresh_succeeds self w); try reflexivity;
      destruct Hres as (e & [=] & _).
  - eexists _, _. split; [reflexivity |]. split; [exact Hext3 |].
    destruct (refresh_succeeds self w); [discriminate | exact Hres].
Qed.

Lemma extends_set_atexit (w w1 : World) (evs : list Event) (n : nat) :
  extends w w1 evs -> extends w (set_atexit n w1) evs.
Proof. intros Hx. exact Hx. Qed.

(** Every call of [_login] fetches a token at most once, at the token URL,
    and makes no request. *)
Lemma _login_events (self : MintHCM.t) (w w' : World) (r : Result unit) :
  MintHCM._login self w = (r, w') ->
  exists evs, extends w w' evs /\ (evs = [] \/ evs = [fetch_event self]).
Proof.
  pose proof (with_new_session_extends self w) as Hext0.
  unfold MintHCM._login, MintHCM.login_session,
    MintHCM.token_path_and_load_token, MintHCM.hasattr_OAuth2Session,
    MintHCM.atexit_register.
  unfold with_new_session in Hext0. unfold_M. simpl in *.
  set (w0 := set_headers _ _) in *.
  assert (Hrefresh : forall w1 : World,
             extends w w1 [] ->
             exists r0 w2, MintHCM._refresh_token self w1 = (r0, w2)
                           /\ extends w w2 [fetch_event self]).
  { intros w1 Hx.
    destruct (_refresh_token_spec self w1) as (r0 & w2 & Hr & Hext2 & _).
    exists r0, w2. split; [exact Hr |].
    exact (extends_trans _ _ _ _ _ Hx Hext2). }
  destruct (is_empty (MintHCM._token_path self)); simpl.
  - destruct (Hrefresh w0 Hext0) as (r0 & w2 & -> & Hext2).
    intros Hrun. exists [fetch_event self]. split; [|now right].
    destruct r0 as [[]|e]; [destruct (MintHCM._logout_on_exit self) |];
      inversion Hrun; subst; try apply extends_set_atexit; exact Hext2.
  - destruct (MintHCM._load_token self w0) as [rl w1] eqn:Hl.
    pose proof (_load_token_frame _ _ _ _ Hl) as Hext.
    pose proof (extends_trans _ _ _ _ _ Hext0 Hext) as Hext1.
    simpl in Hext1.
    destruct (Hrefresh w1 Hext1) as (r0 & w2 & Hr & Hext2).
    destruct rl as [[[|]|]|e]; simpl; try rewrite Hr; intros Hrun.
    + exists []. split; [|now left].
      destruct (MintHCM._logout_on_exit self);
        inversion Hrun; subst; try apply extends_set_atexit; exact Hext1.
    + exists [fetch_event self]. split; [|now right].
      destruct r0 as [[]|e]; [destruct (MintHCM._logout_on_exit self) |];
        inversion Hrun; subst; try apply extends_set_atexit; exact Hext2.
    + exists [fetch_event self]. split; [|now right].
      destruct r0 as [[]|e]; [destruct (MintHCM._logout_on_exit self) |];
        inversion Hrun; subst; try apply extends_set_atexit; exact Hext2.
    + exists []. split; [|now left]. inversion Hrun; subst. exact Hext1.
Qed.

End SessionFacts.

(** ** Query: the translation of filters *)

Section QueryClaims.
Context `{PyLib}.

(** The clause of a comparison whose operator is neither [BETWEEN] nor a key
    of the table is a [KeyError] of that operator. *)
Lemma filter_clause_unknown (field : string) (d : gmap string Scalar)
    (op : Scalar) :
  d !! "operator" = Some op -> op <> PyStr "BETWEEN" ->
  (forall s, op = PyStr s -> operators !! s = None) ->
  filter_clause field (Comparison d) = Raise (KeyError op).
Proof.
  intros Hop Hb Hnone. unfold filter_clause, dict_getitem, bindR.
  rewrite Hop. rewrite decide_False by exact Hb.
  unfold operators_getitem. destruct op as [| | | |s]; try reflexivity.
  now rewrite (Hnone s eq_refl).
Qed.

(** C1, as the code has it: a Query whose filters hold a structured
    comparison with an operator that is neither [BETWEEN] nor in the
    operator table fails at translation time with a built-in error, which
    is neither a [RequestError] nor an [AuthenticationError], and leaves
    the world as it was: no request and no token fetch is made. When the
    filters before it translate, the error is the [KeyError] of the
    operator. *)
Theorem unknown_operator_fails_before_request (self : PyModule.t)
    (fields : option (list string)) (sort : option string)
    (operator field : string) (filters : list (string * FilterValue))
    (d : gmap string Scalar) (op : Scalar) (w : World) :
  (field, Comparison d) ∈ filters ->
  d !! "operator" = Some op -> op <> PyStr "BETWEEN" ->
  (forall s, op = PyStr s -> operators !! s = None) ->
  exists e,
    PyModule.get self fields sort operator filters w = (Raise e, w)
    /\ is_MintHCMError e = false
    /\ forall before after,
         filters = (before ++ (field, Comparison d) :: after)%list ->
         Forall (fun fv => exists c, filter_clause fv.1 fv.2 = Ok c) before ->
         e = KeyError op.
Proof.
  intros Hin Hop Hb Hnone.
  pose proof (filter_clause_unknown field d op Hop Hb Hnone) as Hc.
  unfold PyModule.get, get_url. unfold_M.
  set (acc := "filter[operator]=" ++ combinator operator).
  destruct (filter_loop_fails acc _ _ _ _ Hin Hc) as [e He].
  rewrite He. simpl. exists e. split; [reflexivity |]. split.
  - destruct (filter_loop_raise _ _ _ He) as (f' & v' & _ & Hr).
    exact (filter_clause_raises _ _ _ Hr).
  - intros before after -> Hall. rewrite filter_loop_app in He.
    destruct (filter_loop_total acc _ Hall) as [s Hs].
    rewrite Hs in He. unfold bindR in He.
    rewrite filter_loop_cons, Hc in He. congruence.
Qed.

(** C4: a filter [field -> {operator: "BETWEEN", value: "a,b"}], with [a]
    and [b] free of commas, is translated to the clause
    [&filter[field][GT]=a&filter[field][LT]=b] and to nothing else, so that
    the query string of the request contains [filter[field][GT]=a] and
    [filter[field][LT]=b]. *)
Theorem between_emits_GT_and_LT (self : PyModule.t)
    (fields : option (list string)) (sort : option string)
    (operator field a b url : string)
    (filters : list (string * FilterValue)) (d : gmap string Scalar) :
  (field, Comparison d) ∈ filters ->
  d !! "operator" = Some (PyStr "BETWEEN") ->
  d !! "value" = Some (PyStr (a ++ "," ++ b)) ->
  has_char "," a = false -> has_char "," b = false ->
  get_url (MintHCM.baseurl (PyModule.minthcm self))
    (PyModule.module_name self) fields sort operator filters = Ok url ->
  filter_clause field (Comparison d)
  = Ok ("&filter[" ++ field ++ "][GT]=" ++ a
        ++ "&filter[" ++ field ++ "][LT]=" ++ b)
  /\ PyModule.get self fields sort operator filters
     = MintHCM.get (PyModule.minthcm self) url
  /\ Contains ("filter[" ++ field ++ "][GT]=" ++ a) url
  /\ Contains ("filter[" ++ field ++ "][LT]=" ++ b) url.
Proof.
  intros Hin Hop Hval Ha Hb Hurl.
  assert (Hc : filter_clause field (Comparison d)
               = Ok ("&filter[" ++ field ++ "][GT]=" ++ a
                     ++ "&filter[" ++ field ++ "][LT]=" ++ b)).
  { unfold filter_clause, dict_getitem, bindR. rewrite Hop.
    rewrite decide_True by reflexivity. rewrite Hval.
    unfold py_split, list_getitem. now rewrite (split_two a b Ha Hb). }
  split; [exact Hc |]. split.
  { unfold PyModule.get. rewrite Hurl. reflexivity. }
  destruct (get_url_member _ _ _ _ _ _ _ _ _ Hin Hurl) as (c & Hc' & Hcu).
  rewrite Hc in Hc'. injection Hc' as <-.
  split; (eapply Contains_trans; [|exact Hcu]).
  - exists "&", ("&filter[" ++ field ++ "][LT]=" ++ b).
    rewrite !append_assoc. reflexivity.
  - exists ("&filter[" ++ field ++ "][GT]=" ++ a ++ "&"), "".
    rewrite !append_assoc, append_nil_r. reflexivity.
Qed.

(** The clause of a comparison with an operator of the table and a
    value. *)
Lemma filter_clause_table (field op code : string) (d : gmap string Scalar)
    (v : Scalar) :
  d !! "operator" = Some (PyStr op) -> d !! "value" = Some v ->
  (op, code) ∈ [ ("=", "EQ"); ("<>", "NEQ"); (">", "GT"); (">=", "GTE");
                 ("<", "LT"); ("<=", "LTE"); ("LIKE", "LIKE");
                 ("NOT LIKE", "NOT_LIKE"); ("IN", "IN");
                 ("NOT IN", "NOT_IN") ] ->
  filter_clause field (Comparison d)
  = Ok ("&filter[" ++ field ++ "][" ++ code ++ "]=" ++ py_str v).
Proof.
  intros Hop Hval Htab.
  assert (Hne : PyStr op <> PyStr "BETWEEN").
  { intros [= ->]. apply operators_lookup in Htab. discriminate Htab. }
  apply operators_lookup in Htab.
  unfold filter_clause, dict_getitem, bindR. rewrite Hop.
  rewrite decide_False by exact Hne.
  unfold operators_getitem. now rewrite Htab, Hval.
Qed.

(** C5: a filter [field -> value] is translated to the clause
    [&filter[field][EQ]=value] when the value is a plain scalar, and to
    [&filter[field][CODE]=value] when it is a structured comparison with a
    value and an operator of the table, with [CODE] by the mapping
    = EQ, <> NEQ, > GT, >= GTE, < LT, <= LTE, LIKE LIKE,
    NOT LIKE NOT_LIKE, IN IN, NOT IN NOT_IN. A Query all of whose filters
    are of these two kinds is translated, and the query string of every
    Query that is translated contains [filter[field][EQ]=value] or
    [filter[field][CODE]=value] for each such filter. *)
Theorem filter_emits_operator_code (self : PyModule.t)
    (fields : option (list string)) (sort : option string)
    (operator field : string) (value : FilterValue)
    (filters : list (string * FilterValue)) :
  (field, value) ∈ filters ->
  let table :=
    [ ("=", "EQ"); ("<>", "NEQ"); (">", "GT"); (">=", "GTE"); ("<", "LT");
      ("<=", "LTE"); ("LIKE", "LIKE"); ("NOT LIKE", "NOT_LIKE"); ("IN", "IN");
      ("NOT IN", "NOT_IN") ] in
  let run :=
    get_url (MintHCM.baseurl (PyModule.minthcm self))
      (PyModule.module_name self) fields sort operator filters in
  (forall v, value = Plain v ->
     filter_clause field value
     = Ok ("&filter[" ++ field ++ "][EQ]=" ++ py_str v))
  /\ (forall d op code v,
        value = Comparison d ->
        d !! "operator" = Some (PyStr op) -> d !! "value" = Some v ->
        (op, code) ∈ table ->
        filter_clause field value
        = Ok ("&filter[" ++ field ++ "][" ++ code ++ "]=" ++ py_str v))
  /\ (Forall (fun fv : string * FilterValue =>
                (exists v, fv.2 = Plain v)
                \/ (exists d op code v,
                      fv.2 = Comparison d
                      /\ d !! "operator" = Some (PyStr op)
                      /\ d !! "value" = Some v
                      /\ (op, code) ∈ table)) filters ->
      exists url, run = Ok url)
  /\ (forall url,
        run = Ok url ->
        PyModule.get self fields sort operator filters
        = MintHCM.get (PyModule.minthcm self) url
        /\ (forall v, value = Plain v ->
              Contains ("filter[" ++ field ++ "][EQ]=" ++ py_str v) url)
        /\ (forall d op code v,
              value = Comparison d ->
              d !! "operator" = Some (PyStr op) -> d !! "value" = Some v ->
              (op, code) ∈ table ->
              Contains
                ("filter[" ++ field ++ "][" ++ code ++ "]=" ++ py_str v) url)).
Proof.
  intros Hin table run. split; [|split; [|split]].
  - intros v ->. reflexivity.
  - intros d op code v -> Hop Hval Htab.
    exact (filter_clause_table field op code d v Hop Hval Htab).
  - intros Hall. apply get_url_total.
    eapply Forall_impl; [exact Hall |].
    intros [f fv] [[v Hv] | (d & op & code & v & Hv & Hop & Hval & Htab)];
      simpl in *; subst fv.
    + eexists. reflexivity.
    + eexists. exact (filter_clause_table f op code d v Hop Hval Htab).
  - intros url Hurl. split.
    { unfold PyModule.get. fold run. rewrite Hurl. reflexivity. }
    destruct (get_url_member _ _ _ _ _ _ _ _ _ Hin Hurl) as (c & Hc & Hcu).
    split.
    + intros v ->. simpl in Hc. injection Hc as <-.
      eapply Contains_trans; [|exact Hcu].
      exists "&", "". rewrite append_nil_r. reflexivity.
    + intros d op code v -> Hop Hval Htab.
      rewrite (filter_clause_table field op code d v Hop Hval Htab) in Hc.
      injection Hc as <-.
      eapply Contains_trans; [|exact Hcu].
      exists "&", "". rewrite append_nil_r. reflexivity.
Qed.

(** C6: the query string of a Query that is translated contains
    [filter[operator]=] followed by the combinator: the supplied one when
    it is ["and"] or ["or"], and ["and"] for every other one. *)
Theorem combinator_falls_back_to_and (self : PyModule.t)
    (fields : option (list string)) (sort : option string)
    (operator url : string) (filters : list (string * FilterValue)) :
  get_url (MintHCM.baseurl (PyModule.minthcm self))
    (PyModule.module_name self) fields sort operator filters = Ok url ->
  PyModule.get self fields sort operator filters
  = MintHCM.get (PyModule.minthcm self) url
  /\ (operator = "and" \/ operator = "or" ->
      Contains ("filter[operator]=" ++ operator) url)
  /\ (operator <> "and" -> operator <> "or" ->
      Contains "filter[operator]=and" url).
Proof.
  intros Hurl. split.
  { unfold PyModule.get. rewrite Hurl. reflexivity. }
  destruct (get_url_shape _ _ _ _ _ _ _ Hurl) as (hd & s & tl & Hl & ->).
  destruct (filter_loop_extends _ _ _ Hl) as [t ->].
  assert (Hc : Contains ("filter[operator]=" ++ combinator operator)
                 (hd ++ (("filter[operator]=" ++ combinator operator) ++ t)
                  ++ tl)).
  { apply Contains_app_l, Contains_app_r, Contains_app_r, Contains_refl. }
  split.
  - intros Hop.
    assert (Hcomb : combinator operator = operator).
    { unfold combinator. rewrite bool_decide_eq_true_2; [reflexivity |].
      rewrite !elem_of_cons. tauto. }
    rewrite Hcomb in Hc |- *. exact Hc.
  - intros Hand Hor.
    assert (Hcomb : combinator operator = "and").
    { unfold combinator. rewrite bool_decide_eq_false_2; [reflexivity |].
      rewrite !elem_of_cons, elem_of_nil. tauto. }
    rewrite Hcomb in Hc |- *. exact Hc.
Qed.

End QueryClaims.

(** ** Dispatch, Logout, Initialize and Create *)

Section SessionClaims.
Context `{PyLib}.

Lemma rstrip_logout (base : string) :
  rstrip "/" (base ++ "/logout") = base ++ "/logout".
Proof. now rewrite rstrip_app. Qed.

Lemma rstrip_module (base : string) :
  rstrip "/" (base ++ "/module") = base ++ "/module".
Proof. now rewrite rstrip_app. Qed.

Lemma session_hasattr_post : MintHCM.session_hasattr "post" = true.
Proof. vm_compute. reflexivity. Qed.

(** Every string either ends in two characters after a prefix, or has
    fewer than two characters. *)
Lemma last_two_split (s : string) :
  (exists p c1 c2, s = p ++ String c1 (String c2 ""))
  \/ (String.length s < 2)%nat.
Proof.
  induction s as [|a s IH]; [right; simpl; lia |].
  destruct IH as [(p & c1 & c2 & ->) | Hshort].
  - left. now exists (String a p), c1, c2.
  - destruct s as [|b [|c s]]; simpl in Hshort; try lia.
    + right. simpl. lia.
    + left. now exists "", a, b.
Qed.

(** The token URL of a client: its base URL without the last two
    characters, and [access_token]. *)
Lemma token_url_prefix (self : MintHCM.t) (prefix : string) :
  (exists c1 c2, MintHCM.baseurl self = prefix ++ String c1 (String c2 ""))
  \/ ((String.length (MintHCM.baseurl self) < 2)%nat /\ prefix = "") ->
  MintHCM.token_url self = prefix ++ "access_token".
Proof.
  unfold MintHCM.token_url. intros [(c1 & c2 & ->) | [Hshort ->]].
  - now rewrite slice_to_neg_2.
  - now rewrite slice_to_neg_short.
Qed.

(** C2, as the code has it: a call of Dispatch makes at most two requests
    and at most one token fetch, and a second request only after a 401
    response or a token-expired condition on the first. When the first
    attempt yields 401, the token is refreshed exactly once; if the
    refresh succeeds, the same request is retried exactly once, and a 401
    on the retry raises [AuthenticationError] with code 401 after these
    two requests; if the refresh fails, its error is raised and the
    request is not retried. *)
Theorem dispatch_retries_once_after_refresh (self : MintHCM.t)
    (url method : string) (payload : option Json) (w w' : World)
    (r : Result Json) :
  MintHCM._request self url method payload w = (r, w') ->
  let ev := request_event url method payload in
  let o2 := w_net w (S (List.length (requests (w_trace w)))) in
  exists evs,
    extends w w' evs
    /\ (List.length (requests evs) <= 2)%nat
    /\ (List.length (fetches evs) <= 1)%nat
    /\ (List.length (requests evs) = 2%nat ->
        is_retry_trigger (next_outcome w) = true)
    /\ (forall c,
          MintHCM.session_hasattr method = true ->
          next_outcome w = Response 401 c ->
          fetches evs = [fetch_event self]
          /\ if refresh_succeeds self w then
               requests evs = [ev; ev]
               /\ forall c2, o2 = Response 401 c2 ->
                    r = Raise (AuthenticationError
                                 "authentication failed - token rejected"
                                 (Some 401) (JStr ""))
             else
               requests evs = [ev]
               /\ exists e, r = Raise e /\ is_MintHCMError e = true).
Proof.
  intros Hrun ev o2.
  destruct (MintHCM.session_hasattr method) eqn:Hm.
  - pose proof (_request_spec _ _ _ _ _ _ _ Hm Hrun) as Hspec.
    simpl in Hspec. fold ev o2 in Hspec.
    destruct (is_retry_trigger (next_outcome w)) eqn:Htrig.
    + destruct (refresh_succeeds self w) eqn:Hrs.
      * destruct Hspec as (logs & Hext & Hreq & Hfet & Hfin).
        exists (ev :: fetch_event self :: ev :: logs).
        split; [exact Hext |].
        assert (Hrq : requests (ev :: fetch_event self :: ev :: logs)
                      = [ev; ev]).
        { unfold requests in *. simpl. now rewrite Hreq. }
        assert (Hft : fetches (ev :: fetch_event self :: ev :: logs)
                      = [fetch_event self]).
        { unfold fetches in *. simpl. now rewrite Hfet. }
        rewrite Hrq, Hft. simpl.
        split; [lia |]. split; [lia |]. split; [reflexivity |].
        intros c _ Ho. split; [reflexivity |]. split; [reflexivity |].
        intros c2 Ho2. rewrite Ho2 in Hfin. simpl in Hfin.
        destruct Hfin as (_ & e & -> & _ & He). now rewrite (He c2 eq_refl).
      * destruct Hspec as (Hext & e & -> & He).
        exists [ev; fetch_event self]. split; [exact Hext |]. simpl.
        split; [lia |]. split; [lia |]. split; [discriminate |].
        intros c _ Ho. split; [reflexivity |]. split; [reflexivity |].
        now exists e.
    + destruct Hspec as (logs & Hext & Hreq & Hfet & Hfin).
      exists (ev :: logs). split; [exact Hext |].
      assert (Hrq : requests (ev :: logs) = [ev]).
      { unfold requests in *. simpl. now rewrite Hreq. }
      assert (Hft : fetches (ev :: logs) = []).
      { unfold fetches in *. simpl. now rewrite Hfet. }
      rewrite Hrq, Hft. simpl.
      split; [lia |]. split; [lia |]. split; [discriminate |].
      intros c _ Ho. rewrite Ho in Htrig. discriminate Htrig.
  - rewrite _request_invalid_method in Hrun by exact Hm.
    inversion Hrun; subst. exists []. split; [apply extends_refl |].
    simpl. split; [lia |]. split; [lia |]. split; [discriminate |].
    intros c Hcontra. discriminate Hcontra.
Qed.

(** C3, as the code has it: Logout makes a POST to [{base}/logout]. When
    that request returns, Logout returns without raising, with the token
    file truncated to empty if a token path is set and the file can be
    written, and as it was if the write fails: the error of the
    truncation is swallowed. When the request raises, Logout raises that
    error and leaves the token file as the request left it. *)
Theorem logout_swallows_truncation_errors (self : MintHCM.t) (w : World) :
  let ev :=
    EvRequest "post" (quote (MintHCM.baseurl self ++ "/logout") "/:?=&")
      (Some (json_dumps (JObj [("data", JNull)]))) in
  exists r1 w1 rest,
    MintHCM._request self (MintHCM.baseurl self ++ "/logout") "post" None w
    = (r1, w1)
    /\ w_trace w1 = (w_trace w ++ ev :: rest)%list
    /\ match r1 with
       | Ok _ =>
           exists w',
             MintHCM._logout self w = (Ok tt, w')
             /\ w_trace w' = w_trace w1
             /\ w_file w'
                = if is_empty (MintHCM._token_path self)
                     || w_write_denied w
                  then w_file w1 else Some ""
       | Raise e => MintHCM._logout self w = (Raise e, w1)
       end.
Proof.
  intros ev.
  destruct (MintHCM._request self (MintHCM.baseurl self ++ "/logout")
              "post" None w) as [r1 w1] eqn:Hrun.
  pose proof (_request_spec _ _ _ _ _ _ _ session_hasattr_post Hrun)
    as Hspec.
  unfold request_event in Hspec. rewrite rstrip_logout in Hspec.
  simpl in Hspec. fold ev in Hspec.
  assert (Hx : exists rest, extends w w1 (ev :: rest)).
  { destruct (is_retry_trigger (next_outcome w)).
    - destruct (refresh_succeeds self w).
      + destruct Hspec as (logs & Hext & _). eauto.
      + destruct Hspec as (Hext & _). eauto.
    - destruct Hspec as (logs & Hext & _). eauto. }
  destruct Hx as (rest & Htr & _ & _ & Hwd & _).
  exists r1, w1, rest. split; [reflexivity |]. split; [exact Htr |].
  unfold MintHCM._logout, write_file. unfold_M. rewrite Hrun.
  destruct r1 as [j|e]; [|reflexivity].
  rewrite <- Hwd.
  destruct (is_empty (MintHCM._token_path self)); simpl.
  - eexists. repeat split.
  - destruct (w_write_denied w1); simpl; eexists; repeat split.
Qed.



(** C10: in Initialize with a token path, a token file that is empty or
    holds white space only is not parsed, whatever [json.loads] would make
    of it: the load returns [None], a false value, raises nothing and
    leaves the session as it was; Initialize then fetches a token at the
    token endpoint and ends as it does when the file is missing. *)
Theorem initialize_blank_token_file
    (client_id client_secret url token_path content : string)
    (logout_on_exit : bool) (w : World) :
  is_empty token_path = false ->
  w_read_denied w = false ->
  w_file w = Some content ->
  is_empty (strip content) = true ->
  let self :=
    MintHCM.mk url client_id client_secret token_path logout_on_exit
      ("Mozilla/5.0 (Windows NT 10.0; Win64; x64) AppleWebKit/537.36 "
       ++ "(KHTML, like Gecko) Chrome/97.0.4692.99 Safari/537.36") in
  let run :=
    MintHCM.__init__ client_id client_secret url token_path logout_on_exit in
  MintHCM._load_token self w = (Ok None, w)
  /\ MintHCM.truthy None = false
  /\ w_trace (run w).2
     = (w_trace w
        ++ [EvFetchToken (slice_to_neg 2 url ++ "access_token")
              client_id client_secret])%list
  /\ (run w).1 = (run (set_file None w)).1
  /\ w_trace (run w).2 = w_trace (run (set_file None w)).2
  /\ w_token (run w).2 = w_token (run (set_file None w)).2.
Proof.
  intros Hp Hd Hf Hs self run.
  split; [apply (_load_token_blank self w content); assumption |].
  split; [reflexivity |].
  assert (Hblank : MintHCM._load_token self (with_new_session self w)
                   = (Ok None, with_new_session self w)).
  { apply (_load_token_blank self _ content); assumption. }
  assert (Hmiss : MintHCM._load_token self
                    (with_new_session self (set_file None w))
                  = (Ok (Some false),
                     with_new_session self (set_file None w))).
  { apply _load_token_missing; [exact Hp | exact Hd | reflexivity]. }
  destruct (_login_not_loaded self w _ _ Hp Hblank eq_refl)
    as (r & w' & Hrun & (Htr & _) & _).
  split.
  { unfold run, MintHCM.__init__. fold self. unfold_M. rewrite Hrun.
    destruct r as [[]|e]; exact Htr. }
  clear Hrun Htr r w'.
  unfold run, MintHCM.__init__. fold self.
  unfold MintHCM._login, MintHCM.login_session,
    MintHCM.token_path_and_load_token, MintHCM.hasattr_OAuth2Session,
    MintHCM.atexit_register.
  unfold with_new_session in Hblank, Hmiss. unfold_M.
  unfold MintHCM.new_session in *. simpl in Hblank, Hmiss |- *.
  rewrite Hp. simpl. rewrite Hblank, Hmiss. simpl.
  unfold MintHCM._refresh_token, MintHCM._save_token, fetch_token,
    write_file. unfold_M. simpl. rewrite Hp.
  destruct (w_auth w _) as [tok| | |msg|msg]; simpl;
    try (repeat split; reflexivity).
  destruct (w_write_denied w); simpl;
    destruct logout_on_exit; repeat split; reflexivity.
Qed.

(** C8, as the code has it: Create makes one call of the manager's POST, to
    [{base}/module] with the payload
    [{type: moduleName, attributes: attributes}], and returns what that
    call returns. That call sends one POST to the sanitized [{base}/module]
    with the serialized [{data: payload}]; when the first attempt meets a
    401 response or an expired token and the token refresh succeeds, it
    sends the same POST a second time. The parsed content of the response
    below 400 that answers the last POST is returned as it is. *)
Theorem create_posts_type_and_attributes (self : PyModule.t)
    (attributes : list (string * Json)) (w w' : World) (r : Result Json) :
  PyModule.create self attributes w = (r, w') ->
  let base := MintHCM.baseurl (PyModule.minthcm self) in
  let payload :=
    JObj [("type", JStr (PyModule.module_name self));
          ("attributes", JObj attributes)] in
  let ev :=
    EvRequest "post" (quote (base ++ "/module") "/:?=&")
      (Some (json_dumps (JObj [("data", payload)]))) in
  let retried :=
    is_retry_trigger (next_outcome w)
    && refresh_succeeds (PyModule.minthcm self) w in
  let answer :=
    if retried then w_net w (S (List.length (requests (w_trace w))))
    else next_outcome w in
  PyModule.create self attributes
  = MintHCM.post (PyModule.minthcm self) (base ++ "/module") payload
  /\ exists evs,
       extends w w' evs
       /\ requests evs = (if retried then [ev; ev] else [ev])
       /\ forall status content j,
            answer = Response status content ->
            status < 400 ->
            json_loads content = Some j ->
            r = Ok j
            /\ evs = if retried
                     then [ev; fetch_event (PyModule.minthcm self); ev]
                     else [ev].
Proof.
  intros Hrun base payload ev retried answer. split; [reflexivity |].
  unfold PyModule.create, MintHCM.post in Hrun. fold base payload in Hrun.
  pose proof (_request_spec _ _ _ _ _ _ _ session_hasattr_post Hrun)
    as Hspec.
  unfold request_event in Hspec. rewrite rstrip_module in Hspec.
  simpl in Hspec. fold payload ev in Hspec.
  subst retried answer.
  destruct (is_retry_trigger (next_outcome w)) eqn:Htrig; simpl.
  - destruct (refresh_succeeds self.(PyModule.minthcm) w).
    + destruct Hspec as (logs & Hext & Hreq & Hfet & Hfin).
      eexists. split; [exact Hext |]. split.
      * unfold requests in *. simpl. now rewrite Hreq.
      * intros status content j Ho Hlt Hj. rewrite Ho in Hfin.
        simpl in Hfin.
        destruct (status =? 401) eqn:H401; [apply Z.eqb_eq in H401; lia |].
        simpl in Hfin. apply Z.ltb_lt in Hlt. rewrite Hlt, Hj in Hfin.
        destruct Hfin as [-> ->]. split; reflexivity.
    + destruct Hspec as (Hext & _).
      eexists. split; [exact Hext |]. split; [reflexivity |].
      intros status content j Ho Hlt _. rewrite Ho in Htrig.
      simpl in Htrig. apply Z.eqb_eq in Htrig. lia.
  - destruct Hspec as (logs & Hext & Hreq & Hfet & Hfin).
    exists (ev :: logs). split; [exact Hext |]. split.
    + unfold requests in *. simpl. now rewrite Hreq.
    + intros status content j Ho Hlt Hj. rewrite Ho in Hfin.
      simpl in Hfin. apply Z.ltb_lt in Hlt. rewrite Hlt, Hj in Hfin.
      destruct Hfin as [-> ->]. split; reflexivity.
Qed.

(** C9: every token fetch of Initialize and of Dispatch is at the base URL
    without its last two characters, followed by [access_token] (at
    [access_token] alone for a base URL of fewer than two characters). *)
Theorem token_endpoint_strips_two_characters (self : MintHCM.t)
    (prefix : string) :
  (exists c1 c2, MintHCM.baseurl self = prefix ++ String c1 (String c2 ""))
  \/ ((String.length (MintHCM.baseurl self) < 2)%nat /\ prefix = "") ->
  let fetch :=
    EvFetchToken (prefix ++ "access_token") (MintHCM._client_id self)
      (MintHCM._client_secret self) in
  (forall w r w',
     MintHCM.__init__ (MintHCM._client_id self) (MintHCM._client_secret self)
       (MintHCM.baseurl self) (MintHCM._token_path self)
       (MintHCM._logout_on_exit self) w = (r, w') ->
     exists evs, extends w w' evs /\ Forall (eq fetch) (fetches evs))
  /\ (forall url method payload w r w',
       MintHCM._request self url method payload w = (r, w') ->
       exists evs, extends w w' evs /\ Forall (eq fetch) (fetches evs))
  /\ (forall w r w',
       MintHCM._refresh_token self w = (r, w') ->
       extends w w' [fetch]).
Proof.
  intros Hsplit fetch.
  assert (Hfe : forall self' : MintHCM.t,
             MintHCM.baseurl self' = MintHCM.baseurl self ->
             MintHCM._client_id self' = MintHCM._client_id self ->
             MintHCM._client_secret self' = MintHCM._client_secret self ->
             fetch_event self' = fetch).
  { intros self' Hb Hi Hc. unfold fetch_event, fetch.
    rewrite <- (token_url_prefix self prefix Hsplit).
    unfold MintHCM.token_url. now rewrite Hb, Hi, Hc. }
  split; [|split].
  - intros w r w' Hrun. unfold MintHCM.__init__ in Hrun.
    set (self' := MintHCM.mk _ _ _ _ _ _) in Hrun. unfold_M.
    destruct (MintHCM._login self' w) as [r0 w0] eqn:Hl.
    apply _login_events in Hl as (evs & Hext & Hevs).
    assert (w0 = w') as -> by (destruct r0; now inversion Hrun).
    exists evs. split; [exact Hext |].
    destruct Hevs as [-> | ->]; simpl; [constructor |].
    rewrite (Hfe self' eq_refl eq_refl eq_refl). now repeat constructor.
  - intros url method payload w r w' Hrun.
    apply _request_events in Hrun as (evs & Hext & Hcases).
    exists evs. split; [exact Hext |].
    rewrite <- (Hfe self eq_refl eq_refl eq_refl).
    destruct Hcases as [[_ ->] | [[_ [-> | ->]] | (_ & -> & _)]];
      repeat constructor.
  - intros w r w' Hrun.
    destruct (_refresh_token_spec self w) as (r0 & w0 & Hr & Hext & _).
    rewrite Hr in Hrun. inversion Hrun; subst.
    now rewrite <- (Hfe self eq_refl eq_refl eq_refl).
Qed.

End SessionClaims.

(** ** The properties at sample inputs *)

(** At the filters [{age: {operator: "~=", value: "30"}}] Query raises
    [KeyError], which is not a [RequestError]. *)
Lemma unknown_operator_raises_KeyError :
  @PyModule.get Sample.lib Sample.employees None None "and"
    [("age", Comparison Sample.approx_30)] Sample.w_ok
  = (Raise (KeyError (PyStr "~=")), Sample.w_ok)
  /\ is_RequestError (KeyError (PyStr "~=")) = false.
Proof. split; vm_compute; reflexivity. Qed.

Lemma unknown_operator_fails_before_request_witness :
  exists e,
    @PyModule.get Sample.lib Sample.employees None None "and"
      [("age", Comparison Sample.approx_30)] Sample.w_ok
    = (Raise e, Sample.w_ok)
    /\ is_MintHCMError e = false
    /\ e = KeyError (PyStr "~=").
Proof.
  destruct (@unknown_operator_fails_before_request Sample.lib
              Sample.employees None None "and" "age"
              [("age", Comparison Sample.approx_30)] Sample.approx_30
              (PyStr "~=") Sample.w_ok) as (e & Hrun & Hkind & Hkey).
  - constructor.
  - vm_compute. reflexivity.
  - discriminate.
  - intros s [= <-]. vm_compute. reflexivity.
  - exists e. split; [exact Hrun |]. split; [exact Hkind |].
    apply (Hkey [] []); [reflexivity | constructor].
Defined.

Lemma between_emits_GT_and_LT_witness :
  Contains "filter[age][GT]=18"
    "https://hcm.example/api/V8/module/Employees?&filter[operator]=and&filter[age][GT]=18&filter[age][LT]=65"
  /\ Contains "filter[age][LT]=65"
    "https://hcm.example/api/V8/module/Employees?&filter[operator]=and&filter[age][GT]=18&filter[age][LT]=65".
Proof.
  destruct (@between_emits_GT_and_LT Sample.lib Sample.employees None None
              "and" "age" "18" "65"
              "https://hcm.example/api/V8/module/Employees?&filter[operator]=and&filter[age][GT]=18&filter[age][LT]=65"
              [("age", Comparison Sample.between_18_65)]
              Sample.between_18_65) as (_ & _ & Hgt & Hlt).
  - constructor.
  - vm_compute. reflexivity.
  - vm_compute. reflexivity.
  - reflexivity.
  - reflexivity.
  - vm_compute. reflexivity.
  - split; [exact Hgt | exact Hlt].
Defined.

Lemma filter_emits_operator_code_witness :
  filter_clause "age" (Comparison Sample.above_30)
  = Ok "&filter[age][GT]=30"
  /\ exists url,
       get_url "https://hcm.example/api/V8" "Employees" None None "and"
         [("status", Plain (PyStr "active"));
          ("age", Comparison Sample.above_30)] = Ok url
       /\ Contains "filter[age][GT]=30" url.
Proof.
  destruct (@filter_emits_operator_code Sample.lib Sample.employees None
              None "and" "age" (Comparison Sample.above_30)
              [("status", Plain (PyStr "active"));
               ("age", Comparison Sample.above_30)])
    as (_ & Hclause & Htotal & Hurl).
  - constructor. constructor.
  - assert (Hop : Sample.above_30 !! "operator" = Some (PyStr ">"))
      by (vm_compute; reflexivity).
    assert (Hval : Sample.above_30 !! "value" = Some (PyInt 30))
      by (vm_compute; reflexivity).
    assert (Htab : (">", "GT")
                   ∈ [ ("=", "EQ"); ("<>", "NEQ"); (">", "GT"); (">=", "GTE");
                       ("<", "LT"); ("<=", "LTE"); ("LIKE", "LIKE");
                       ("NOT LIKE", "NOT_LIKE"); ("IN", "IN");
                       ("NOT IN", "NOT_IN") ])
      by (do 2 constructor; constructor).
    split.
    + exact (Hclause Sample.above_30 ">" "GT" (PyInt 30) eq_refl Hop Hval
               Htab).
    + destruct Htotal as [url Hrun].
      * constructor; [left; now exists (PyStr "active") |].
        constructor; [|constructor].
        right. exists Sample.above_30, ">", "GT", (PyInt 30).
        split; [reflexivity |]. split; [exact Hop |].
        split; [exact Hval | exact Htab].
      * exists url. split; [exact Hrun |].
        destruct (Hurl url Hrun) as (_ & _ & Hcmp).
        exact (Hcmp Sample.above_30 ">" "GT" (PyInt 30) eq_refl Hop Hval
                 Htab).
Defined.

Lemma combinator_falls_back_to_and_witness :
  Contains "filter[operator]=and"
    "https://hcm.example/api/V8/module/Employees?&filter[operator]=and&sort=-name".
Proof.
  destruct (@combinator_falls_back_to_and Sample.lib Sample.employees None
              (Some "name") "xor"
              "https://hcm.example/api/V8/module/Employees?&filter[operator]=and&sort=-name"
              []) as (_ & _ & Hother).
  - vm_compute. reflexivity.
  - apply Hother; discriminate.
Defined.

(** At a first attempt answered 401 with an authorization server that cannot
    be reached, Dispatch refreshes once and does not retry: one request is
    made, and the error of the refresh is raised. *)
Lemma dispatch_no_retry_when_refresh_fails :
  next_outcome Sample.w_401_auth_down = Response 401 ""
  /\ (@MintHCM._request Sample.lib Sample.client Sample.module_url "get" None
        Sample.w_401_auth_down).1
     = Raise (RequestError "failed to refresh token: connection refused" None
                (JStr ""))
  /\ w_trace (@MintHCM._request Sample.lib Sample.client Sample.module_url
                "get" None Sample.w_401_auth_down).2
     = [EvRequest "get" Sample.module_url None;
        EvFetchToken "https://hcm.example/api/access_token" "id" "secret"].
Proof. repeat split; vm_compute; reflexivity. Qed.

Lemma dispatch_retries_once_after_refresh_witness :
  exists evs,
    extends Sample.w_401
      (@MintHCM._request Sample.lib Sample.client Sample.module_url "get" None
         Sample.w_401).2 evs
    /\ fetches evs
       = [EvFetchToken "https://hcm.example/api/access_token" "id" "secret"]
    /\ requests evs
       = [EvRequest "get" Sample.module_url None;
          EvRequest "get" Sample.module_url None]
    /\ (@MintHCM._request Sample.lib Sample.client Sample.module_url "get" None
          Sample.w_401).1
       = Raise (AuthenticationError "authentication failed - token rejected"
                  (Some 401) (JStr "")).
Proof.
  destruct (@dispatch_retries_once_after_refresh Sample.lib Sample.client
              Sample.module_url "get" None Sample.w_401
              (@MintHCM._request Sample.lib Sample.client Sample.module_url
                 "get" None Sample.w_401).2
              (@MintHCM._request Sample.lib Sample.client Sample.module_url
                 "get" None Sample.w_401).1)
    as (evs & Hext & _ & _ & _ & H401).
  - vm_compute. reflexivity.
  - destruct (H401 "") as [Hfetch Hretry].
    + vm_compute. reflexivity.
    + vm_compute. reflexivity.
    + assert (Hrs : refresh_succeeds Sample.client Sample.w_401 = true)
        by (vm_compute; reflexivity).
      rewrite Hrs in Hretry. destruct Hretry as [Hreq Hraise].
      exists evs. split; [exact Hext |]. split; [exact Hfetch |].
      split; [exact Hreq |]. apply (Hraise ""). vm_compute. reflexivity.
Defined.

(** At a server that answers 500, Logout raises the [RequestError] of its
    request, and the token file is not truncated. *)
Lemma logout_raises_when_request_fails :
  (@MintHCM._logout Sample.lib Sample.client Sample.w_500).1
  = Raise (RequestError "request failed" (Some 500) (JStr "boom"))
  /\ w_file (@MintHCM._logout Sample.lib Sample.client Sample.w_500).2
     = Some (Sample.dumps Sample.token).
Proof. split; vm_compute; reflexivity. Qed.

(** Logout returns when its request returns, also when the token file cannot
    be written. *)
Lemma logout_swallows_truncation_errors_example :
  (@MintHCM._logout Sample.lib Sample.client Sample.w_ok).1 = Ok tt
  /\ w_file (@MintHCM._logout Sample.lib Sample.client Sample.w_ok).2
     = Some EmptyString
  /\ (@MintHCM._logout Sample.lib Sample.client
        (mkWorld (Some "t") false true (JObj []) ∅ 0%nat Sample.ok_server
           Sample.ok_auth [])).1 = Ok tt.
Proof. repeat split; vm_compute; reflexivity. Qed.

(** At a token file with the content [null], which parses, the setter of
    the session raises and Initialize raises with it; nothing is fetched. *)
Lemma initialize_raises_at_null_token_file :
  (@MintHCM.__init__ Sample.lib "id" "secret" "https://hcm.example/api/V8"
     "AccessToken.json" false
     (Sample.world (Some "null") Sample.ok_server Sample.ok_auth)).1
  = Raise (OtherError "value is no token")
  /\ w_trace (@MintHCM.__init__ Sample.lib "id" "secret"
                "https://hcm.example/api/V8" "AccessToken.json" false
                (Sample.world (Some "null") Sample.ok_server
                   Sample.ok_auth)).2 = [].
Proof. split; vm_compute; reflexivity. Qed.


Lemma initialize_blank_token_file_witness :
  w_trace (@MintHCM.__init__ Sample.lib "id" "secret"
             "https://hcm.example/api/V8" "AccessToken.json" false
             Sample.w_blank_file).2
  = [EvFetchToken "https://hcm.example/api/access_token" "id" "secret"]
  /\ (@MintHCM.__init__ Sample.lib "id" "secret"
        "https://hcm.example/api/V8" "AccessToken.json" false
        Sample.w_blank_file).1
     = (@MintHCM.__init__ Sample.lib "id" "secret"
          "https://hcm.example/api/V8" "AccessToken.json" false
          (set_file None Sample.w_blank_file)).1.
Proof.
  destruct (@initialize_blank_token_file Sample.lib "id" "secret"
              "https://hcm.example/api/V8" "AccessToken.json" "  " false
              Sample.w_blank_file) as (_ & _ & Htr & Hsame & _).
  - reflexivity.
  - reflexivity.
  - reflexivity.
  - vm_compute. reflexivity.
  - split; [exact Htr | exact Hsame].
Defined.

(** At a server that answers 401 to the first request only, Create returns
    the record after two POSTs of the same request and one token fetch
    between them. *)
Lemma create_posts_twice_after_refresh :
  (@PyModule.create Sample.lib Sample.employees [("name", JStr "Jane")]
     Sample.w_401_once).1 = Ok Sample.record
  /\ w_trace (@PyModule.create Sample.lib Sample.employees
                [("name", JStr "Jane")] Sample.w_401_once).2
     = [EvRequest "post" Sample.module_url
          (Some (Sample.dumps
                   (JObj [("data",
                           JObj [("type", JStr "Employees");
                                 ("attributes",
                                  JObj [("name", JStr "Jane")])])])));
        EvFetchToken "https://hcm.example/api/access_token" "id" "secret";
        EvRequest "post" Sample.module_url
          (Some (Sample.dumps
                   (JObj [("data",
                           JObj [("type", JStr "Employees");
                                 ("attributes",
                                  JObj [("name", JStr "Jane")])])])))].
Proof. split; vm_compute; reflexivity. Qed.

Lemma create_posts_type_and_attributes_witness :
  (@PyModule.create Sample.lib Sample.employees [("name", JStr "Jane")]
     Sample.w_ok).1 = Ok Sample.record
  /\ w_trace (@PyModule.create Sample.lib Sample.employees
                [("name", JStr "Jane")] Sample.w_ok).2
     = [EvRequest "post" Sample.module_url
          (Some (Sample.dumps
                   (JObj [("data",
                           JObj [("type", JStr "Employees");
                                 ("attributes",
                                  JObj [("name", JStr "Jane")])])])))].
Proof.
  destruct (@create_posts_type_and_attributes Sample.lib Sample.employees
              [("name", JStr "Jane")] Sample.w_ok
              (@PyModule.create Sample.lib Sample.employees
                 [("name", JStr "Jane")] Sample.w_ok).2
              (@PyModule.create Sample.lib Sample.employees
                 [("name", JStr "Jane")] Sample.w_ok).1)
    as (_ & evs & (Htr & _) & _ & Hok).
  - vm_compute. reflexivity.
  - destruct (Hok 200 (Sample.dumps Sample.record) Sample.record)
      as [Hr Hevs].
    + vm_compute. reflexivity.
    + lia.
    + vm_compute. reflexivity.
    + split; [exact Hr |]. rewrite Htr, Hevs. vm_compute. reflexivity.
Defined.

Lemma token_endpoint_strips_two_characters_witness :
  exists evs,
    extends Sample.w_401
      (@MintHCM._request Sample.lib Sample.client Sample.module_url "get" None
         Sample.w_401).2 evs
    /\ Forall
         (eq (EvFetchToken "https://hcm.example/api/access_token" "id"
                "secret"))
         (fetches evs).
Proof.
  destruct (@token_endpoint_strips_two_characters Sample.lib Sample.client
              "https://hcm.example/api/") as (_ & Hreq & _).
  - left. exists "V"%char, "8"%char. reflexivity.
  - apply (Hreq Sample.module_url "get" None Sample.w_401
             (@MintHCM._request Sample.lib Sample.client Sample.module_url
                "get" None Sample.w_401).1).
    vm_compute. reflexivity.
Defined.

(** * Further properties of the code *)

(** ** The request loop, outcome by outcome *)

Section DispatchFacts.
Context `{PyLib}.

Lemma session_hasattr_enum (method : string) :
  method ∈ [MintHCM.GET; MintHCM.POST; MintHCM.PATCH; MintHCM.DELETE] ->
  MintHCM.session_hasattr method = true.
Proof.
  rewrite !elem_of_cons, elem_of_nil.
  intros [-> | [-> | [-> | [-> | []]]]]; vm_compute; reflexivity.
Qed.

(** One turn of the loop on a response other than 401: the same at every
    attempt. *)
Lemma request_attempt_response (self : MintHCM.t) (method url data : string)
    (attempt : nat) (w : World) (status : Z) (content : string) :
  next_outcome w = Response status content -> status <> 401 ->
  let ev := EvRequest method url (MintHCM.data_arg method data) in
  let logged :=
    emit (EvLogError ("Failed to decode JSON response: "
                      ++ bytes_repr content)) (emit ev w) in
  MintHCM.request_attempt self method url data attempt w
  = match json_loads content with
    | None =>
        if json_loads_unicode_error content then
          (Raise UnicodeDecodeError, emit ev w)
        else
          match bytes_decode content with
          | Some text =>
              (Raise (RequestError "request failed" (Some status)
                        (JStr ("Invalid JSON response: " ++ text))), logged)
          | None => (Raise UnicodeDecodeError, logged)
          end
    | Some j =>
        if 400 <=? status then
          (match errors_detail j with
           | Ok d => Raise (RequestError "request failed" (Some status) d)
           | Raise e => Raise e
           end, emit ev w)
        else (Ok (Some j), emit ev w)
    end.
Proof.
  intros Ho Hne ev logged. unfold next_outcome in Ho.
  unfold MintHCM.request_attempt, session_call. rewrite Ho.
  unfold try_except, MintHCM.after_response.
  destruct (status =? 401) eqn:H401; [apply Z.eqb_eq in H401; lia |].
  unfold json_loads_bytes_M, decode_M, log_error.
  destruct (json_loads content) as [j|].
  - destruct (400 <=? status); unfold_M; simpl; try reflexivity.
    destruct (errors_detail j) as [d|e] eqn:Hd; simpl.
    + now rewrite orb_true_r.
    + apply errors_detail_raises in Hd as [message ->]. simpl.
      now rewrite orb_true_r.
  - destruct (json_loads_unicode_error content);
      [destruct (400 <=? status); unfold_M; simpl; now rewrite orb_true_r |].
    destruct (400 <=? status); unfold_M; simpl;
      unfold log_error, decode_M; unfold_M;
      destruct (bytes_decode content); reflexivity.
Qed.

Lemma request_attempt_transport (self : MintHCM.t) (method url data : string)
    (attempt : nat) (w : World) (message : string) :
  next_outcome w = RaiseTransport message ->
  MintHCM.request_attempt self method url data attempt w
  = (Raise (OtherError message),
     emit (EvRequest method url (MintHCM.data_arg method data)) w).
Proof.
  intros Ho. unfold next_outcome in Ho.
  unfold MintHCM.request_attempt, session_call. rewrite Ho. simpl.
  now rewrite orb_true_r.
Qed.

(** The first turn on a 401 response or an expired token: the refresh, and
    [continue] when it succeeds. *)
Lemma request_attempt_first_trigger (self : MintHCM.t)
    (method url data : string) (w : World) :
  is_retry_trigger (next_outcome w) = true ->
  MintHCM.request_attempt self method url data 0 w
  = match MintHCM._refresh_token self
            (emit (EvRequest method url (MintHCM.data_arg method data)) w) with
    | (Ok _, w1) => (Ok None, w1)
    | (Raise e, w1) => (Raise e, w1)
    end.
Proof.
  intros Htrig. unfold next_outcome in Htrig.
  unfold MintHCM.request_attempt, session_call.
  set (ev := EvRequest method url (MintHCM.data_arg method data)).
  destruct (_refresh_token_spec self (emit ev w))
    as (r0 & w1 & Hr & _ & Hres).
  destruct (w_net w _) as [status content| |message]; simpl in Htrig;
    [|simpl; unfold_M; rewrite Hr; now destruct r0 | discriminate].
  unfold try_except, MintHCM.after_response. rewrite Htrig. simpl.
  unfold_M. rewrite Hr. destruct r0 as [[]|e]; [reflexivity |].
  destruct (refresh_succeeds self (emit ev w)); [discriminate |].
  destruct Hres as (e' & [= ->] & He').
  destruct e'; try discriminate; reflexivity.
Qed.

(** The second turn on a 401 response or an expired token. *)
Lemma request_attempt_second_trigger (self : MintHCM.t)
    (method url data : string) (w : World) :
  is_retry_trigger (next_outcome w) = true ->
  MintHCM.request_attempt self method url data 1 w
  = (Raise (match next_outcome w with
            | RaiseTokenExpired =>
                AuthenticationError "API token refresh failed" None (JStr "")
            | _ =>
                AuthenticationError "authentication failed - token rejected"
                  (Some 401) (JStr "")
            end),
     emit (EvRequest method url (MintHCM.data_arg method data)) w).
Proof.
  unfold next_outcome. intros Htrig.
  unfold MintHCM.request_attempt, session_call.
  destruct (w_net w _) as [status content| |message]; simpl in Htrig;
    [|reflexivity | discriminate].
  unfold try_except, MintHCM.after_response. rewrite Htrig. reflexivity.
Qed.

(** The second turn never ends in [continue]. *)
Lemma request_attempt_second_decides (self : MintHCM.t)
    (method url data : string) (w w' : World) :
  MintHCM.request_attempt self method url data 1 w <> (Ok None, w').
Proof.
  destruct (is_retry_trigger (next_outcome w)) eqn:Htrig.
  - rewrite request_attempt_second_trigger by exact Htrig. discriminate.
  - destruct (next_outcome w) as [status content| |message] eqn:Ho.
    + rewrite (request_attempt_response _ _ _ _ _ _ _ _ Ho).
      * destruct (json_loads content).
        -- destruct (400 <=? status); [|discriminate].
           destruct (errors_detail j); discriminate.
        -- destruct (json_loads_unicode_error content); [discriminate |].
           destruct (bytes_decode content); discriminate.
      * intros ->. discriminate Htrig.
    + discriminate Htrig.
    + rewrite (request_attempt_transport _ _ _ _ _ _ _ Ho). discriminate.
Qed.

(** [_request] with a valid method, as its two turns. *)
Lemma _request_turns (self : MintHCM.t) (url method : string)
    (payload : option Json) (w : World) :
  MintHCM.session_hasattr method = true ->
  let body :=
    MintHCM.request_attempt self method (quote (rstrip "/" url) "/:?=&")
      (json_dumps (JObj [("data", default JNull payload)])) in
  MintHCM._request self url method payload w
  = match body 0%nat w with
    | (Ok (Some j), w1) => (Ok j, w1)
    | (Raise e, w1) => (Raise e, w1)
    | (Ok None, w1) =>
        match body 1%nat w1 with
        | (Ok (Some j), w2) => (Ok j, w2)
        | (Raise e, w2) => (Raise e, w2)
        | (Ok None, w2) =>
            (Raise (RequestError "request failed after retrying" None
                      (JStr "")), w2)
        end
    end.
Proof.
  intros Hm body. unfold MintHCM._request. rewrite Hm. simpl. unfold_M.
  fold body.
  destruct (body 0%nat w) as [[[j|]|e] w1]; try reflexivity.
  destruct (body 1%nat w1) as [[[j|]|e] w2]; reflexivity.
Qed.

(** X1: a response below 400 whose content parses is returned parsed, after
    one request and nothing else: the session and the token file are as
    they were. *)
Theorem dispatch_success_returns_parsed_json (self : MintHCM.t)
    (url method : string) (payload : option Json) (w : World) (status : Z)
    (content : string) (j : Json) :
  MintHCM.session_hasattr method = true ->
  next_outcome w = Response status content ->
  status < 400 ->
  json_loads content = Some j ->
  MintHCM._request self url method payload w
  = (Ok j, emit (request_event url method payload) w).
Proof.
  intros Hm Ho Hlt Hj. rewrite _request_turns by exact Hm. simpl.
  rewrite (request_attempt_response _ _ _ _ _ _ _ _ Ho) by lia.
  rewrite Hj. destruct (400 <=? status) eqn:Hge; [lia | reflexivity].
Qed.

(** X2: a response with a status from 400 on, other than 401, whose content
    parses to an object raises [RequestError] at once, with the status as
    code and the [detail] of the object under [errors] as details (the empty
    string when [errors] or [detail] is absent): one request, no refresh, no
    retry. *)
Theorem dispatch_error_status_raises_request_error (self : MintHCM.t)
    (url method : string) (payload : option Json) (w : World) (status : Z)
    (content : string) (members errors : list (string * Json)) :
  MintHCM.session_hasattr method = true ->
  next_outcome w = Response status content ->
  400 <= status -> status <> 401 ->
  json_loads content = Some (JObj members) ->
  members_get members "errors" (JObj []) = JObj errors ->
  MintHCM._request self url method payload w
  = (Raise (RequestError "request failed" (Some status)
              (members_get errors "detail" (JStr ""))),
     emit (request_event url method payload) w).
Proof.
  intros Hm Ho Hge Hne Hj He. rewrite _request_turns by exact Hm. simpl.
  rewrite (request_attempt_response _ _ _ _ _ _ _ _ Ho) by exact Hne.
  rewrite Hj. destruct (400 <=? status) eqn:Hge'; [|lia].
  unfold errors_detail. rewrite He. reflexivity.
Qed.

(** X3: a response with a status from 400 on, other than 401, whose content
    parses to something that is no object, or to an object whose [errors]
    is no object, makes Dispatch raise the [AttributeError] of the lookup,
    which is none of the two errors of the client. *)
Theorem dispatch_error_body_not_object_raises_attribute_error
    (self : MintHCM.t) (url method : string) (payload : option Json)
    (w : World) (status : Z) (content : string) (j : Json) :
  MintHCM.session_hasattr method = true ->
  next_outcome w = Response status content ->
  400 <= status -> status <> 401 ->
  json_loads content = Some j ->
  is_object j = false
  \/ (exists members,
        j = JObj members
        /\ is_object (members_get members "errors" (JObj [])) = false) ->
  exists message,
    MintHCM._request self url method payload w
    = (Raise (AttributeError message),
       emit (request_event url method payload) w)
    /\ is_MintHCMError (AttributeError message) = false.
Proof.
  intros Hm Ho Hge Hne Hj Hobj.
  assert (Hd : exists message, errors_detail j = Raise (AttributeError message)).
  { destruct Hobj as [Hobj | (members & -> & Hobj)].
    - destruct j; try (eexists; reflexivity). discriminate Hobj.
    - unfold errors_detail.
      destruct (members_get members "errors" (JObj []));
        try (eexists; reflexivity).
      discriminate Hobj. }
  destruct Hd as [message Hd]. exists message. split; [|reflexivity].
  rewrite _request_turns by exact Hm. simpl.
  rewrite (request_attempt_response _ _ _ _ _ _ _ _ Ho) by exact Hne.
  rewrite Hj. destruct (400 <=? status) eqn:Hge'; [|lia].
  now rewrite Hd.
Qed.

(** X4: a response other than 401 whose content is bytes that [json.loads]
    rejects with [JSONDecodeError] makes Dispatch log one error, whose text
    holds the content as Python prints bytes, and then decode the content:
    when it decodes, Dispatch raises [RequestError] with the status as code
    and the decoded text in the details, whatever the status; when it does
    not, the [UnicodeDecodeError] of the decoding leaves Dispatch. When
    [json.loads] itself rejects the bytes with [UnicodeDecodeError], that
    error leaves Dispatch and nothing is logged. In each case one request
    is made. *)
Theorem dispatch_unparseable_body_raises_request_error (self : MintHCM.t)
    (url method : string) (payload : option Json) (w : World) (status : Z)
    (content : string) :
  MintHCM.session_hasattr method = true ->
  next_outcome w = Response status content ->
  status <> 401 ->
  json_loads content = None ->
  let sent := emit (request_event url method payload) w in
  let logged :=
    emit (EvLogError ("Failed to decode JSON response: "
                      ++ bytes_repr content)) sent in
  MintHCM._request self url method payload w
  = if json_loads_unicode_error content then
      (Raise UnicodeDecodeError, sent)
    else
      match bytes_decode content with
      | Some text =>
          (Raise (RequestError "request failed" (Some status)
                    (JStr ("Invalid JSON response: " ++ text))), logged)
      | None => (Raise UnicodeDecodeError, logged)
      end.
Proof.
  intros Hm Ho Hne Hj sent logged. rewrite _request_turns by exact Hm. simpl.
  rewrite (request_attempt_response _ _ _ _ _ _ _ _ Ho) by exact Hne.
  rewrite Hj. subst sent logged. unfold request_event.
  destruct (json_loads_unicode_error content); [reflexivity |].
  destruct (bytes_decode content); reflexivity.
Qed.

(** X5: an exception of the transport other than an expired token leaves
    Dispatch as it is, after one request, without refresh or retry. *)
Theorem dispatch_transport_error_propagates (self : MintHCM.t)
    (url method : string) (payload : option Json) (w : World)
    (message : string) :
  MintHCM.session_hasattr method = true ->
  next_outcome w = RaiseTransport message ->
  MintHCM._request self url method payload w
  = (Raise (OtherError message), emit (request_event url method payload) w).
Proof.
  intros Hm Ho. rewrite _request_turns by exact Hm. simpl.
  now rewrite (request_attempt_transport _ _ _ _ _ _ _ Ho).
Qed.

(** X6: after a 401 response or an expired token and a successful refresh,
    a retry that meets neither again ends as a new call of Dispatch in the
    world after the refresh. *)
Theorem dispatch_retry_is_fresh_request (self : MintHCM.t)
    (url method : string) (payload : option Json) (w w1 : World) :
  MintHCM.session_hasattr method = true ->
  is_retry_trigger (next_outcome w) = true ->
  MintHCM._refresh_token self (emit (request_event url method payload) w)
  = (Ok tt, w1) ->
  is_retry_trigger (next_outcome w1) = false ->
  MintHCM._request self url method payload w
  = MintHCM._request self url method payload w1.
Proof.
  intros Hm Htrig Hr Hno. rewrite !_request_turns by exact Hm. simpl.
  rewrite (request_attempt_first_trigger _ _ _ _ _ Htrig).
  unfold request_event in Hr. rewrite Hr.
  destruct (next_outcome w1) as [status content| |message] eqn:Ho.
  - assert (Hne : status <> 401) by (intros ->; discriminate Hno).
    rewrite !(request_attempt_response _ _ _ _ _ _ _ _ Ho) by exact Hne.
    destruct (json_loads content).
    + destruct (400 <=? status); [|reflexivity].
      destruct (errors_detail j); reflexivity.
    + destruct (json_loads_unicode_error content); [reflexivity |].
      destruct (bytes_decode content); reflexivity.
  - discriminate Hno.
  - rewrite !(request_attempt_transport _ _ _ _ _ _ _ Ho). reflexivity.
Qed.

(** X7: after a 401 response or an expired token and a successful refresh,
    a retry that meets an expired token raises [AuthenticationError] "API
    token refresh failed", and one that meets a 401 response raises
    [AuthenticationError] "authentication failed - token rejected" with
    code 401, whichever of the two the first attempt met; there is no
    second refresh and no third request. *)
Theorem dispatch_second_trigger_raises_authentication_error
    (self : MintHCM.t) (url method : string) (payload : option Json)
    (w w1 : World) :
  MintHCM.session_hasattr method = true ->
  is_retry_trigger (next_outcome w) = true ->
  MintHCM._refresh_token self (emit (request_event url method payload) w)
  = (Ok tt, w1) ->
  is_retry_trigger (next_outcome w1) = true ->
  MintHCM._request self url method payload w
  = (Raise (match next_outcome w1 with
            | RaiseTokenExpired =>
                AuthenticationError "API token refresh failed" None (JStr "")
            | _ =>
                AuthenticationError "authentication failed - token rejected"
                  (Some 401) (JStr "")
            end),
     emit (request_event url method payload) w1).
Proof.
  intros Hm Htrig Hr Htrig1. rewrite _request_turns by exact Hm. simpl.
  rewrite (request_attempt_first_trigger _ _ _ _ _ Htrig).
  unfold request_event in Hr. rewrite Hr.
  rewrite (request_attempt_second_trigger _ _ _ _ _ Htrig1). reflexivity.
Qed.

(** X8: when the first attempt meets an expired token and the refresh
    fails, Dispatch raises the error of the refresh, one of the two errors
    of the client, and makes no second request. *)
Theorem dispatch_token_expired_refresh_failure (self : MintHCM.t)
    (url method : string) (payload : option Json) (w : World) :
  MintHCM.session_hasattr method = true ->
  next_outcome w = RaiseTokenExpired ->
  refresh_succeeds self w = false ->
  exists e w1,
    MintHCM._request self url method payload w = (Raise e, w1)
    /\ is_MintHCMError e = true
    /\ extends w w1 [request_event url method payload; fetch_event self].
Proof.
  intros Hm Ho Hrs.
  assert (Htrig : is_retry_trigger (next_outcome w) = true) by now rewrite Ho.
  rewrite _request_turns by exact Hm. simpl.
  rewrite (request_attempt_first_trigger _ _ _ _ _ Htrig).
  fold (request_event url method payload).
  destruct (_refresh_token_spec self (emit (request_event url method payload) w))
    as (r0 & w1 & Hr & Hext & Hres).
  unfold request_event in Hres. rewrite refresh_succeeds_emit, Hrs in Hres.
  destruct Hres as (e & -> & He). rewrite Hr. exists e, w1.
  split; [reflexivity |]. split; [exact He |].
  apply (extends_trans w (emit (request_event url method payload) w) w1
           [request_event url method payload] [fetch_event self]);
    [apply extends_emit | exact Hext].
Qed.

(** X9: the statement after the loop of [_request] is never reached: the
    two turns of the loop decide every call, whatever follows the loop. *)
Theorem dispatch_loop_always_decides (self : MintHCM.t)
    (method url data : string) (orelse1 orelse2 : M Json) (w : World) :
  MintHCM.for_attempts (MintHCM.request_attempt self method url data)
    (seq 0 2) orelse1 w
  = MintHCM.for_attempts (MintHCM.request_attempt self method url data)
      (seq 0 2) orelse2 w.
Proof.
  simpl. unfold_M.
  destruct (MintHCM.request_attempt self method url data 0 w)
    as [[[j|]|e] w1]; try reflexivity.
  destruct (MintHCM.request_attempt self method url data 1 w1)
    as [[[j|]|e] w2] eqn:H2; try reflexivity.
  destruct (request_attempt_second_decides _ _ _ _ _ _ H2).
Qed.

End DispatchFacts.

(** ** The wrappers, the URL and the token refresh *)

Section RefreshFacts.
Context `{PyLib}.

Lemma rstrip_snoc (c : ascii) (s : string) :
  rstrip c (s ++ String c "") = rstrip c s.
Proof.
  induction s as [|a s IH]; simpl.
  - now rewrite Ascii.eqb_refl.
  - now rewrite IH.
Qed.

(** X10: a slash at the end of the URL makes no difference to Dispatch. *)
Theorem dispatch_ignores_trailing_slash (self : MintHCM.t)
    (url method : string) (payload : option Json) :
  MintHCM._request self (url ++ "/") method payload
  = MintHCM._request self url method payload.
Proof. unfold MintHCM._request. now rewrite rstrip_snoc. Qed.

(** What a call of [_request] with a valid method requests: the same
    request, once or twice. *)
Lemma _request_valid_events (self : MintHCM.t) (url method : string)
    (payload : option Json) (w w' : World) (r : Result Json) :
  MintHCM.session_hasattr method = true ->
  MintHCM._request self url method payload w = (r, w') ->
  exists evs,
    extends w w' evs
    /\ (requests evs = [request_event url method payload]
        \/ requests evs = [request_event url method payload;
                           request_event url method payload]).
Proof.
  intros Hm Hrun. apply _request_spec in Hrun; [|exact Hm]. simpl in Hrun.
  destruct (is_retry_trigger (next_outcome w)).
  - destruct (refresh_succeeds self w).
    + destruct Hrun as (logs & Hext & Hreq & _).
      eexists. split; [exact Hext |]. right.
      unfold requests in *. simpl. now rewrite Hreq.
    + destruct Hrun as (Hext & _). eexists. split; [exact Hext |]. now left.
  - destruct Hrun as (logs & Hext & Hreq & _).
    eexists. split; [exact Hext |]. left.
    unfold requests in *. simpl. now rewrite Hreq.
Qed.

(** X11: each of the four wrappers reaches the network, with its own
    method and the sanitized URL; the requests of [get] and [delete] carry no
    body, and those of [post] and [patch] carry the serialized
    [{data: payload}]. *)
Theorem wrappers_send_body_only_for_post_and_patch (self : MintHCM.t)
    (url : string) (payload : Json) (w w' : World) (r : Result Json) :
  let target := quote (rstrip "/" url) "/:?=&" in
  let body := Some (json_dumps (JObj [("data", payload)])) in
  let sends (ev : Event) :=
    exists evs,
      extends w w' evs
      /\ (requests evs = [ev] \/ requests evs = [ev; ev]) in
  (MintHCM.get self url w = (r, w') -> sends (EvRequest "get" target None))
  /\ (MintHCM.delete self url w = (r, w') ->
      sends (EvRequest "delete" target None))
  /\ (MintHCM.post self url payload w = (r, w') ->
      sends (EvRequest "post" target body))
  /\ (MintHCM.patch self url payload w = (r, w') ->
      sends (EvRequest "patch" target body)).
Proof.
  intros target body sends. unfold sends.
  repeat split; intros Hrun;
    (apply _request_valid_events in Hrun; [exact Hrun | vm_compute; reflexivity]).
Qed.

(** X12: when a token refresh returns, the session holds the fetched token
    and, with a token path, the token file holds its serialization; without
    a token path the file is as it was. *)
Theorem refresh_success_persists_token (self : MintHCM.t) (w w' : World) :
  MintHCM._refresh_token self w = (Ok tt, w') ->
  exists token,
    w_auth w (List.length (fetches (w_trace w))) = FetchOk token
    /\ w_token w' = token
    /\ w_file w'
       = (if is_empty (MintHCM._token_path self) then w_file w
          else Some (json_dumps token))
    /\ w_trace w' = (w_trace w ++ [fetch_event self])%list.
Proof.
  unfold MintHCM._refresh_token, MintHCM._save_token, fetch_token, write_file,
    fetch_event.
  unfold_M.
  destruct (w_auth w _) as [tok| | |msg|msg]; simpl; try discriminate.
  destruct (is_empty (MintHCM._token_path self)); simpl.
  - intros [= <-]. exists tok. repeat split.
  - destruct (w_write_denied w); simpl; [discriminate |].
    intros [= <-]. exists tok. repeat split.
Qed.

(** X13: a token refresh that fails has asked for a token once, leaves the
    token file as it was, and raises [AuthenticationError] when the client
    is rejected and [RequestError] otherwise: "error accessing MintHCM API"
    for an OAuth2 error of the server, and "failed to refresh token: " with
    the text of the error for every other error of the fetch, and for the
    error of the file system when the token was fetched and could not be
    saved. *)
Theorem refresh_failure_kinds (self : MintHCM.t) (w w' : World) (e : Exn) :
  MintHCM._refresh_token self w = (Raise e, w') ->
  w_file w' = w_file w
  /\ w_trace w' = (w_trace w ++ [fetch_event self])%list
  /\ match w_auth w (List.length (fetches (w_trace w))) with
     | FetchInvalidClient =>
         e = AuthenticationError "invalid API client ID or secret" None
               (JStr "")
     | FetchCustomOAuth2 =>
         e = RequestError "error accessing MintHCM API" None (JStr "")
     | FetchRaise message | FetchRefused message =>
         e = RequestError ("failed to refresh token: " ++ message) None
               (JStr "")
     | FetchOk token =>
         (exists message,
            e = RequestError ("failed to refresh token: " ++ message) None
                  (JStr ""))
         /\ is_empty (MintHCM._token_path self) = false
         /\ w_write_denied w = true
     end.
Proof.
  unfold MintHCM._refresh_token, MintHCM._save_token, fetch_token, write_file,
    fetch_event.
  unfold_M.
  destruct (w_auth w _) as [tok| | |msg|msg]; simpl;
    try (intros [= <- <-]; repeat split; reflexivity).
  destruct (is_empty (MintHCM._token_path self)); simpl; [discriminate |].
  destruct (w_write_denied w); simpl; [|discriminate].
  intros [= <- <-]. repeat split. eexists. reflexivity.
Qed.

End RefreshFacts.

(** ** Initialize and Logout *)

Section InitializeFacts.
Context `{PyLib}.

Ltac unfold_login :=
  unfold MintHCM.__init__, MintHCM._login, MintHCM.login_session,
    MintHCM.token_path_and_load_token, MintHCM.hasattr_OAuth2Session,
    MintHCM._load_token, read_file, MintHCM._refresh_token,
    MintHCM._save_token, fetch_token, write_file, MintHCM.new_session,
    MintHCM.atexit_register, json_loads_M, session_set_token in *;
  unfold_M; simpl in *.

Ltac destruct_setter :=
  try match goal with
      | |- context [token_setter ?j] => destruct (token_setter j)
      end.

(** X14: Initialize registers Logout for the exit of the process exactly
    when [logout_on_exit] is set and the login has not raised. *)
Theorem initialize_registers_logout_only_on_success
    (client_id client_secret url token_path : string)
    (logout_on_exit : bool) (w w' : World) (r : Result MintHCM.t) :
  MintHCM.__init__ client_id client_secret url token_path logout_on_exit w
  = (r, w') ->
  w_atexit w'
  = if logout_on_exit && is_Ok r then S (w_atexit w) else w_atexit w.
Proof.
  intros Hrun. unfold_login. revert Hrun.
  destruct (is_empty token_path); simpl;
    destruct (w_read_denied w); simpl;
    destruct (w_file w) as [content|]; simpl;
    try destruct (is_empty (strip content)); simpl;
    try destruct (json_loads (strip content)); simpl;
    destruct_setter; simpl;
    try destruct (w_auth w (List.length (fetches (w_trace w)))); simpl;
    destruct (w_write_denied w); simpl;
    destruct logout_on_exit; simpl;
    intros [= <- <-]; reflexivity.
Qed.

(** X15: without a token path Initialize never reads or writes the token
    file: it always fetches a token, also when a readable token file is
    there, and succeeds exactly when the fetch does. *)
Theorem initialize_without_token_path
    (client_id client_secret url : string) (logout_on_exit : bool)
    (w w' : World) (r : Result MintHCM.t) :
  MintHCM.__init__ client_id client_secret url "" logout_on_exit w = (r, w') ->
  w_file w' = w_file w
  /\ w_trace w'
     = (w_trace w
        ++ [EvFetchToken (slice_to_neg 2 url ++ "access_token") client_id
              client_secret])%list
  /\ (is_Ok r = true <->
      exists token,
        w_auth w (List.length (fetches (w_trace w))) = FetchOk token).
Proof.
  intros Hrun. unfold_login. revert Hrun.
  destruct (w_auth w (List.length (fetches (w_trace w)))); simpl;
    destruct logout_on_exit; simpl;
    intros [= <- <-]; (split; [reflexivity |]); (split; [reflexivity |]);
    simpl; split; eauto; try discriminate; intros [tok [=]].
Qed.

(** X16: with a token path and a token file that cannot be opened for
    another reason than its absence, Initialize raises the error of the
    file system, which is none of the two errors of the client; nothing is
    fetched and no exit handler is registered. *)
Theorem initialize_unreadable_token_file
    (client_id client_secret url token_path : string)
    (logout_on_exit : bool) (w w' : World) (r : Result MintHCM.t) :
  is_empty token_path = false ->
  w_read_denied w = true ->
  MintHCM.__init__ client_id client_secret url token_path logout_on_exit w
  = (r, w') ->
  (exists message, r = Raise (OSError message))
  /\ w_trace w' = w_trace w
  /\ w_atexit w' = w_atexit w
  /\ w_file w' = w_file w.
Proof.
  intros Hp Hd Hrun. unfold_login. rewrite Hp in Hrun. simpl in Hrun.
  rewrite Hd in Hrun. simpl in Hrun. injection Hrun as <- <-. repeat split. eexists. reflexivity.
Qed.

(** X17: the token Initialize has fetched and saved is the one a later
    Initialize reads back: when the first has fetched and returned, and the
    library parses the serialized token back, the second gives that token
    to its session without a fetch. It returns with that token in its
    session when the session takes it; when the setter of the session
    raises on it, that error leaves the second Initialize. *)
Theorem initialize_restores_persisted_token
    (client_id client_secret url token_path : string)
    (logout_on_exit : bool) (w w1 : World) (self : MintHCM.t) :
  is_empty token_path = false ->
  w_read_denied w = false ->
  MintHCM.__init__ client_id client_secret url token_path logout_on_exit w
  = (Ok self, w1) ->
  w_trace w1 <> w_trace w ->
  is_empty (strip (json_dumps (w_token w1))) = false ->
  json_loads (strip (json_dumps (w_token w1))) = Some (w_token w1) ->
  w_file w1 = Some (json_dumps (w_token w1))
  /\ exists w2,
       MintHCM.__init__ client_id client_secret url token_path
         logout_on_exit w1
       = (match token_setter (w_token w1) with
          | None => Ok self
          | Some message => Raise (OtherError message)
          end, w2)
       /\ w_trace w2 = w_trace w1
       /\ w_token w2 = w_token w1.
Proof.
  intros Hp Hd Hrun Hfetched Hblank Hround.
  assert (Hfile : w_file w1 = Some (json_dumps (w_token w1))
                  /\ w_read_denied w1 = false).
  { clear Hblank Hround. unfold_login. rewrite Hp in Hrun.
    simpl in Hrun. rewrite Hd in Hrun. simpl in Hrun. revert Hrun.
    destruct (w_file w) as [content|]; simpl;
      try destruct (is_empty (strip content)); simpl;
      try destruct (json_loads (strip content)); simpl;
      destruct_setter; simpl;
      try destruct (w_auth w (List.length (fetches (w_trace w)))); simpl;
      destruct (w_write_denied w); simpl;
      destruct logout_on_exit; simpl;
      intros [= <- <-]; simpl in *; try contradiction;
      split; (reflexivity || exact Hd). }
  destruct Hfile as [Hfile Hd1]. split; [exact Hfile |].
  assert (Hself : self = MintHCM.mk url client_id client_secret token_path
                           logout_on_exit
                           ("Mozilla/5.0 (Windows NT 10.0; Win64; x64) AppleWebKit/537.36 "
                            ++ "(KHTML, like Gecko) Chrome/97.0.4692.99 Safari/537.36")).
  { unfold MintHCM.__init__ in Hrun. unfold_M.
    destruct (MintHCM._login _ w) as [[[]|e] w0]; now inversion Hrun. }
  clear Hrun. unfold_login. rewrite Hp. simpl. rewrite Hd1, Hfile. simpl.
  rewrite Hblank. simpl. rewrite Hround. simpl.
  destruct (token_setter (w_token w1)); simpl;
    destruct logout_on_exit; simpl; eexists; subst self; repeat split.
Qed.

Lemma _logout_returns (self : MintHCM.t) (w w1 : World) :
  MintHCM._logout self w = (Ok tt, w1) ->
  exists evs,
    extends w w1 evs
    /\ w_file w1
       = if is_empty (MintHCM._token_path self) || w_write_denied w
         then w_file w1 else Some "".
Proof.
  unfold MintHCM._logout, write_file. unfold_M.
  destruct (MintHCM._request self _ "post" None w) as [r0 w0] eqn:Hrun.
  apply _request_events in Hrun as (evs & Hext & _).
  destruct r0 as [j|e]; [|discriminate].
  pose proof Hext as (_ & _ & _ & Hwd & _). rewrite <- Hwd.
  destruct (is_empty (MintHCM._token_path self)); simpl.
  - intros [= <-]. exists evs. split; [exact Hext | reflexivity].
  - destruct (w_write_denied w0); simpl; intros [= <-]; exists evs;
      (split; [exact Hext | reflexivity]).
Qed.

(** X18: after a Logout that has returned and could write the token file, a
    login of the same client finds the truncated file, loads no token from
    it and fetches a new one. *)
Theorem login_after_logout_fetches (self : MintHCM.t) (w w1 : World) :
  is_empty (MintHCM._token_path self) = false ->
  w_read_denied w = false ->
  w_write_denied w = false ->
  MintHCM._logout self w = (Ok tt, w1) ->
  w_file w1 = Some ""
  /\ exists r w2,
       MintHCM._login self w1 = (r, w2)
       /\ w_trace w2 = (w_trace w1 ++ [fetch_event self])%list.
Proof.
  intros Hp Hd Hwd Hrun.
  destruct (_logout_returns _ _ _ Hrun) as (evs & Hext & Hfile).
  rewrite Hp, Hwd in Hfile. simpl in Hfile. split; [exact Hfile |].
  destruct Hext as (_ & _ & _ & _ & Hrd).
  assert (Hl : MintHCM._load_token self (with_new_session self w1)
               = (Ok None, with_new_session self w1)).
  { apply (_load_token_blank self _ ""); try assumption.
    - simpl. now rewrite Hrd.
    - reflexivity. }
  destruct (_login_not_loaded self w1 _ _ Hp Hl eq_refl)
    as (r & w2 & Hlogin & (Htr & _) & _).
  exists r, w2. split; [exact Hlogin | exact Htr].
Qed.

End InitializeFacts.

(** ** The text of an error *)

(** X19: the text of an error names the code only when it is set and not
    zero: a code of [0] prints as no code does. With empty details the text
    ends in the message and a space; otherwise the details follow a dash. *)
Theorem error_text_omits_zero_code (message details : string) (c : Z) :
  MintHCMError.__str__ message (Some 0) details
  = MintHCMError.__str__ message None details
  /\ (c <> 0 ->
      MintHCMError.__str__ message (Some c) details
      = "MintHCM API Error (" ++ pretty c ++ "): " ++ message ++ " "
        ++ (if is_empty details then "" else "- " ++ details))
  /\ MintHCMError.__str__ message None ""
     = "MintHCM API Error " ++ message ++ " ".
Proof.
  split; [reflexivity |]. split; [|reflexivity].
  intros Hc. unfold MintHCMError.__str__.
  destruct (c =? 0) eqn:Hz; [apply Z.eqb_eq in Hz; contradiction |].
  destruct details; reflexivity.
Qed.

(** ** Query: which filters translate *)

Section QueryFacts.
Context `{PyLib}.

Lemma split_nonempty (c : ascii) (s : string) : split c s <> [].
Proof.
  destruct s as [|a s]; simpl; [discriminate |].
  destruct (Ascii.eqb a c); [discriminate |].
  destruct (split c s); discriminate.
Qed.

(** A string with the separator splits into two parts at least. *)
Lemma split_has_char (c : ascii) (s : string) :
  has_char c s = true -> exists x y rest, split c s = x :: y :: rest.
Proof.
  induction s as [|a s IH]; simpl; [discriminate |].
  destruct (Ascii.eqb a c) eqn:Hac; simpl.
  - intros _. destruct (split c s) as [|y rest] eqn:Hs.
    + destruct (split_nonempty _ _ Hs).
    + now exists "", y, rest.
  - intros Hs. destruct (IH Hs) as (x & y & rest & ->).
    now exists (String a x), y, rest.
Qed.

Lemma filter_clause_ok_iff (field : string) (value : FilterValue) :
  (exists c, filter_clause field value = Ok c) <-> well_formed value = true.
Proof.
  destruct value as [v|d]; simpl; [split; eauto |].
  unfold dict_getitem, bindR.
  destruct (d !! "operator") as [[| | | |op]|]; simpl;
    try (split; [intros [c [=]] | discriminate]).
  destruct (String.eqb_spec op "BETWEEN") as [-> | Hne].
  - rewrite decide_True by reflexivity.
    destruct (d !! "value") as [[| | | |s]|]; simpl;
      try (split; [intros [c [=]] | discriminate]).
    unfold list_getitem.
    destruct (has_char "," s) eqn:Hs.
    + destruct (split_has_char _ _ Hs) as (x & y & rest & ->). simpl.
      split; eauto.
    + rewrite (split_no_sep _ _ Hs). simpl.
      split; [intros [c [=]] | discriminate].
  - rewrite decide_False by congruence. simpl.
    destruct (operators !! op); simpl;
      [|split; [intros [c [=]] | discriminate]].
    destruct (d !! "value"); simpl; split; eauto;
      try discriminate; intros [c [=]].
Qed.

(** X20: a Query is translated exactly when each of its filters is well
    formed. A Query with a filter that is not raises a built-in error,
    neither [RequestError] nor [AuthenticationError], and leaves the world
    as it was: nothing is requested. *)
Theorem query_translates_iff_filters_well_formed (self : PyModule.t)
    (fields : option (list string)) (sort : option string)
    (operator : string) (filters : list (string * FilterValue)) (w : World) :
  ((exists url,
      get_url (MintHCM.baseurl (PyModule.minthcm self))
        (PyModule.module_name self) fields sort operator filters = Ok url)
   <-> Forall (fun fv => well_formed fv.2 = true) filters)
  /\ (forall field value,
        (field, value) ∈ filters -> well_formed value = false ->
        exists e,
          PyModule.get self fields sort operator filters w = (Raise e, w)
          /\ is_MintHCMError e = false).
Proof.
  split; [split |].
  - intros [url Hurl]. apply Forall_forall. intros [f v] Hin.
    destruct (get_url_member _ _ _ _ _ _ _ _ _ Hin Hurl) as (c & Hc & _).
    apply (filter_clause_ok_iff f). eauto.
  - intros Hall. apply get_url_total.
    eapply Forall_impl; [exact Hall |].
    intros [f v] Hwf. now apply filter_clause_ok_iff.
  - intros f v Hin Hwf.
    destruct (filter_clause f v) as [c|e0] eqn:Hc.
    { assert (Hok : well_formed v = true)
        by (apply (filter_clause_ok_iff f); eauto).
      congruence. }
    unfold PyModule.get, get_url. unfold_M.
    destruct (filter_loop_fails ("filter[operator]=" ++ combinator operator)
                _ _ _ _ Hin Hc) as [e He].
    rewrite He. simpl. exists e. split; [reflexivity |].
    destruct (filter_loop_raise _ _ _ He) as (f' & v' & _ & Hr).
    exact (filter_clause_raises _ _ _ Hr).
Qed.

(** A Query raises what the clause of its first filter that does not
    translate raises. *)
Lemma get_raises_first_failure (self : PyModule.t)
    (fields : option (list string)) (sort : option string)
    (operator field : string) (value : FilterValue) (e : Exn)
    (before after : list (string * FilterValue)) (w : World) :
  Forall (fun fv => well_formed fv.2 = true) before ->
  filter_clause field value = Raise e ->
  PyModule.get self fields sort operator
    (before ++ (field, value) :: after) w = (Raise e, w).
Proof.
  intros Hall Hc. unfold PyModule.get, get_url. unfold_M.
  rewrite filter_loop_app.
  destruct (filter_loop_total ("filter[operator]=" ++ combinator operator)
              before) as [s ->].
  { eapply Forall_impl; [exact Hall |].
    intros [f v] Hwf. now apply filter_clause_ok_iff. }
  unfold bindR. rewrite filter_loop_cons, Hc. reflexivity.
Qed.

(** X21: what a Query raises at its first filter that does not translate,
    by the defect of that comparison: [KeyError] of ["operator"] when the
    operator is missing; for [BETWEEN], [KeyError] of ["value"] when the
    value is missing, an [AttributeError] when it is no [str] and
    [IndexError] when it has no comma; for an operator of the table, [KeyError] of
    ["value"] when the value is missing. *)
Theorem query_raises_error_of_first_bad_filter (self : PyModule.t)
    (fields : option (list string)) (sort : option string)
    (operator field : string) (d : gmap string Scalar)
    (before after : list (string * FilterValue)) (w : World) :
  Forall (fun fv => well_formed fv.2 = true) before ->
  let run :=
    PyModule.get self fields sort operator
      (before ++ (field, Comparison d) :: after) w in
  (d !! "operator" = None -> run = (Raise (KeyError (PyStr "operator")), w))
  /\ (d !! "operator" = Some (PyStr "BETWEEN") ->
      (d !! "value" = None -> run = (Raise (KeyError (PyStr "value")), w))
      /\ (forall v, d !! "value" = Some v ->
                    (forall s, v <> PyStr s) ->
                    exists message,
                      run = (Raise (AttributeError message), w))
      /\ (forall s, d !! "value" = Some (PyStr s) ->
                    has_char "," s = false ->
                    run = (Raise IndexError, w)))
  /\ (forall op code,
        d !! "operator" = Some (PyStr op) -> operators !! op = Some code ->
        d !! "value" = None ->
        run = (Raise (KeyError (PyStr "value")), w)).
Proof.
  intros Hall run. unfold run.
  split; [|split].
  - intros Hop. apply get_raises_first_failure; [exact Hall |].
    unfold filter_clause, dict_getitem, bindR. now rewrite Hop.
  - intros Hop. split; [|split].
    + intros Hv. apply get_raises_first_failure; [exact Hall |].
      unfold filter_clause, dict_getitem, bindR. rewrite Hop.
      rewrite decide_True by reflexivity. now rewrite Hv.
    + intros v Hv Hns.
      exists ("'" ++ py_type_name v ++ "' object has no attribute 'split'").
      apply get_raises_first_failure; [exact Hall |].
      unfold filter_clause, dict_getitem, bindR. rewrite Hop.
      rewrite decide_True by reflexivity. rewrite Hv.
      destruct v as [| | | |s]; try reflexivity. destruct (Hns s eq_refl).
    + intros s Hv Hs. apply get_raises_first_failure; [exact Hall |].
      unfold filter_clause, dict_getitem, bindR. rewrite Hop.
      rewrite decide_True by reflexivity. rewrite Hv.
      unfold py_split, list_getitem. now rewrite (split_no_sep _ _ Hs).
  - intros op code Hop Hcode Hv.
    apply get_raises_first_failure; [exact Hall |].
    assert (Hne : PyStr op <> PyStr "BETWEEN").
    { intros [= ->]. vm_compute in Hcode. discriminate Hcode. }
    unfold filter_clause, dict_getitem, bindR. rewrite Hop.
    rewrite decide_False by exact Hne.
    unfold operators_getitem. now rewrite Hcode, Hv.
Qed.

(** X22: a [BETWEEN] value with more than two parts is translated by its
    first two parts; what follows the second comma is dropped. *)
Theorem between_ignores_further_values (baseurl module_name operator : string)
    (fields : option (list string)) (sort : option string)
    (field a b rest : string) (d d2 : gmap string Scalar)
    (before after : list (string * FilterValue)) :
  d !! "operator" = Some (PyStr "BETWEEN") ->
  d !! "value" = Some (PyStr (a ++ "," ++ b ++ "," ++ rest)) ->
  d2 !! "operator" = Some (PyStr "BETWEEN") ->
  d2 !! "value" = Some (PyStr (a ++ "," ++ b)) ->
  has_char "," a = false -> has_char "," b = false ->
  filter_clause field (Comparison d)
  = Ok ("&filter[" ++ field ++ "][GT]=" ++ a
        ++ "&filter[" ++ field ++ "][LT]=" ++ b)
  /\ get_url baseurl module_name fields sort operator
       (before ++ (field, Comparison d) :: after)
     = get_url baseurl module_name fields sort operator
         (before ++ (field, Comparison d2) :: after).
Proof.
  intros Hop Hv Hop2 Hv2 Ha Hb.
  assert (Hc : filter_clause field (Comparison d)
               = Ok ("&filter[" ++ field ++ "][GT]=" ++ a
                     ++ "&filter[" ++ field ++ "][LT]=" ++ b)).
  { unfold filter_clause, dict_getitem, bindR. rewrite Hop.
    rewrite decide_True by reflexivity. rewrite Hv.
    unfold py_split, list_getitem.
    change ("," ++ b ++ "," ++ rest) with (String "," (b ++ String "," rest)).
    rewrite (split_app _ _ _ Ha), (split_app _ _ _ Hb). reflexivity. }
  assert (Hc2 : filter_clause field (Comparison d2)
                = Ok ("&filter[" ++ field ++ "][GT]=" ++ a
                      ++ "&filter[" ++ field ++ "][LT]=" ++ b)).
  { unfold filter_clause, dict_getitem, bindR. rewrite Hop2.
    rewrite decide_True by reflexivity. rewrite Hv2.
    unfold py_split, list_getitem. now rewrite (split_two a b Ha Hb). }
  split; [exact Hc |].
  unfold get_url. rewrite !filter_loop_app.
  destruct (filter_loop _ before) as [s|e]; [|reflexivity].
  unfold bindR. now rewrite !filter_loop_cons, Hc, Hc2.
Qed.

(** The clauses of a list of filters, in their order. *)
Lemma filter_loop_clauses (acc s : string)
    (filters : list (string * FilterValue)) :
  filter_loop acc filters = Ok s ->
  exists clauses,
    Forall2 (fun fv c => filter_clause fv.1 fv.2 = Ok c) filters clauses
    /\ s = acc ++ fold_right String.append "" clauses.
Proof.
  revert acc. induction filters as [|[f v] l IH]; intros acc; simpl.
  - intros [= <-]. exists []. split; [constructor |].
    simpl. now rewrite append_nil_r.
  - destruct (filter_clause f v) as [c|e] eqn:Hc; [|discriminate].
    intros Hl. destruct (IH _ Hl) as (cs & Hcs & ->).
    exists (c :: cs). split; [now constructor |].
    simpl. now rewrite append_assoc.
Qed.

(** X23: the URL of a Query: the module URL, the fields or a bare question
    mark, the combinator, the clauses of the filters in the order of the
    filters, and the sort at the end. An empty list of fields and an empty
    sort count as none. *)
Theorem query_url_in_filter_order (baseurl module_name operator url : string)
    (fields : option (list string)) (sort : option string)
    (filters : list (string * FilterValue)) :
  get_url baseurl module_name fields sort operator filters = Ok url ->
  exists clauses,
    Forall2 (fun fv c => filter_clause fv.1 fv.2 = Ok c) filters clauses
    /\ url
       = (baseurl ++ "/module/" ++ module_name
          ++ match fields with
             | None | Some [] => "?"
             | Some fs => "?fields[" ++ module_name ++ "]=" ++ join "," fs
             end
          ++ "&")
         ++ ("filter[operator]="
             ++ (if bool_decide (operator = "and" \/ operator = "or")
                 then operator else "and")
             ++ fold_right String.append "" clauses)
         ++ match sort with
            | None | Some "" => ""
            | Some s => "&sort=-" ++ s
            end.
Proof.
  unfold get_url, bindR.
  destruct (filter_loop _ filters) as [s|e] eqn:Hl; [|discriminate].
  intros Hu. assert (Hurl := f_equal (fun r => match r with
                                               | Ok u => u
                                               | Raise _ => url
                                               end) Hu).
  cbv beta iota in Hurl. clear Hu. subst url.
  destruct (filter_loop_clauses _ _ _ Hl) as (cs & Hcs & ->).
  exists cs. split; [exact Hcs |].
  assert (Hcomb : combinator operator
                  = if bool_decide (operator = "and" \/ operator = "or")
                    then operator else "and").
  { unfold combinator.
    destruct (bool_decide (operator = "and" \/ operator = "or")) eqn:Hb.
    - apply bool_decide_eq_true_1 in Hb.
      rewrite bool_decide_eq_true_2; [reflexivity |].
      rewrite !elem_of_cons. tauto.
    - apply bool_decide_eq_false_1 in Hb.
      rewrite bool_decide_eq_false_2; [reflexivity |].
      rewrite !elem_of_cons, elem_of_nil. tauto. }
  rewrite Hcomb.
  set (comb := if bool_decide _ then operator else "and").
  set (fs := match fields with Some (_ :: _) => _ | _ => _ end).
  assert (Hfs : fs = match fields with
                     | None | Some [] => "?"
                     | Some fs => "?fields[" ++ module_name ++ "]="
                                  ++ join "," fs
                     end).
  { unfold fs. destruct fields as [[|f l]|]; reflexivity. }
  rewrite <- Hfs.
  destruct sort as [[|c t]|]; rewrite ?append_assoc, ?append_nil_r;
    reflexivity.
Qed.

End QueryFacts.

(** ** The other operations of the accessor *)

Section AccessorFacts.
Context `{PyLib}.

Lemma lower_char_idempotent (c : ascii) :
  lower_char (lower_char c) = lower_char c.
Proof. destruct c as [[] [] [] [] [] [] [] []]; reflexivity. Qed.

Lemma lower_idempotent (s : string) : lower (lower s) = lower s.
Proof.
  induction s as [|a s IH]; simpl; [reflexivity |].
  now rewrite lower_char_idempotent, IH.
Qed.

(** X24: Delete with an empty record id sends its DELETE to the URL of the
    whole module, the one GetAllRecords reads: the slash that ends the URL
    is stripped. In the same way the preferences of an empty user id are
    read at [{base}/user-preferences]. *)
Theorem delete_with_empty_id_targets_module (self : PyModule.t)
    (client : MintHCM.t) :
  PyModule.delete self ""
  = MintHCM.delete (PyModule.minthcm self)
      (MintHCM.baseurl (PyModule.minthcm self) ++ "/module/"
       ++ PyModule.module_name self)
  /\ MintHCM.get_user_preferences client ""
     = MintHCM.get client (MintHCM.baseurl client ++ "/user-preferences").
Proof.
  split.
  - unfold PyModule.delete, MintHCM.delete.
    replace (MintHCM.baseurl (PyModule.minthcm self)
             ++ "/module/" ++ PyModule.module_name self ++ "/" ++ "")
      with ((MintHCM.baseurl (PyModule.minthcm self)
             ++ "/module/" ++ PyModule.module_name self) ++ "/")
      by (rewrite !append_assoc; reflexivity).
    unfold MintHCM._request. now rewrite rstrip_snoc.
  - unfold MintHCM.get_user_preferences, MintHCM.get.
    replace (MintHCM.baseurl client ++ "/user-preferences/" ++ "")
      with ((MintHCM.baseurl client ++ "/user-preferences") ++ "/")
      by (rewrite !append_assoc; reflexivity).
    unfold MintHCM._request. now rewrite rstrip_snoc.
Qed.

(** X25: the name of the related module counts without its case: a name and
    its lower case give the same GetRelationship and the same
    DeleteRelationship, and so do two names that differ in case only. *)
Theorem relationship_name_ignores_case (self : PyModule.t)
    (record_id name name2 related_bean_id : string) :
  PyModule.get_relationship self record_id (lower name)
  = PyModule.get_relationship self record_id name
  /\ PyModule.delete_relationship self record_id (lower name) related_bean_id
     = PyModule.delete_relationship self record_id name related_bean_id
  /\ (lower name = lower name2 ->
      PyModule.get_relationship self record_id name
      = PyModule.get_relationship self record_id name2
      /\ PyModule.delete_relationship self record_id name related_bean_id
         = PyModule.delete_relationship self record_id name2 related_bean_id).
Proof.
  unfold PyModule.get_relationship, PyModule.delete_relationship.
  rewrite lower_idempotent.
  split; [reflexivity |]. split; [reflexivity |].
  intros Hsame. rewrite Hsame. split; reflexivity.
Qed.

(** X26: Update makes one call of the manager's PATCH, to [{base}/module]
    with the payload [{type: moduleName, id: recordId, attributes}], and
    returns what that call returns; each request of that call is a PATCH to
    the sanitized [{base}/module] with the serialized [{data: payload}],
    made once, or twice after a token refresh. *)
Theorem update_patches_type_id_attributes (self : PyModule.t)
    (record_id : string) (attributes : list (string * Json))
    (w w' : World) (r : Result Json) :
  PyModule.update self record_id attributes w = (r, w') ->
  let base := MintHCM.baseurl (PyModule.minthcm self) in
  let payload :=
    JObj [("type", JStr (PyModule.module_name self)); ("id", JStr record_id);
          ("attributes", JObj attributes)] in
  let ev :=
    EvRequest "patch" (quote (base ++ "/module") "/:?=&")
      (Some (json_dumps (JObj [("data", payload)]))) in
  PyModule.update self record_id attributes
  = MintHCM.patch (PyModule.minthcm self) (base ++ "/module") payload
  /\ exists evs,
       extends w w' evs
       /\ (requests evs = [ev] \/ requests evs = [ev; ev]).
Proof.
  intros Hrun base payload ev. split; [reflexivity |].
  unfold PyModule.update, MintHCM.patch in Hrun.
  apply _request_valid_events in Hrun; [|vm_compute; reflexivity].
  unfold request_event in Hrun. fold base in Hrun.
  rewrite rstrip_module in Hrun. exact Hrun.
Qed.

End AccessorFacts.

(** ** The further properties at sample inputs *)

Lemma dispatch_success_returns_parsed_json_witness :
  (@MintHCM._request Sample.lib Sample.client Sample.module_url "get" None
     Sample.w_ok).1 = Ok Sample.record.
Proof.
  rewrite (@dispatch_success_returns_parsed_json Sample.lib Sample.client
             Sample.module_url "get" None Sample.w_ok 200
             (Sample.dumps Sample.record) Sample.record).
  - reflexivity.
  - vm_compute. reflexivity.
  - vm_compute. reflexivity.
  - lia.
  - vm_compute. reflexivity.
Defined.

Lemma dispatch_error_status_raises_request_error_witness :
  (@MintHCM._request Sample.lib Sample.client Sample.module_url "get" None
     Sample.w_500).1
  = Raise (RequestError "request failed" (Some 500) (JStr "boom")).
Proof.
  rewrite (@dispatch_error_status_raises_request_error Sample.lib
             Sample.client Sample.module_url "get" None Sample.w_500 500
             (Sample.dumps (JObj [("errors", JObj [("detail", JStr "boom")])]))
             [("errors", JObj [("detail", JStr "boom")])]
             [("detail", JStr "boom")]).
  - reflexivity.
  - vm_compute. reflexivity.
  - vm_compute. reflexivity.
  - lia.
  - lia.
  - vm_compute. reflexivity.
  - reflexivity.
Defined.

Lemma dispatch_error_body_not_object_raises_attribute_error_witness :
  exists message,
    (@MintHCM._request Sample.lib Sample.client Sample.module_url "get" None
       Sample.w_404_null).1 = Raise (AttributeError message).
Proof.
  destruct (@dispatch_error_body_not_object_raises_attribute_error Sample.lib
              Sample.client Sample.module_url "get" None Sample.w_404_null
              404 "null" JNull) as (message & Hrun & _).
  - vm_compute. reflexivity.
  - vm_compute. reflexivity.
  - lia.
  - lia.
  - vm_compute. reflexivity.
  - left. reflexivity.
  - exists message. now rewrite Hrun.
Defined.

Lemma dispatch_unparseable_body_raises_request_error_witness :
  @MintHCM._request Sample.lib Sample.client Sample.module_url "get" None
    Sample.w_html
  = (Raise (RequestError "request failed" (Some 200)
              (JStr "Invalid JSON response: <html>")),
     emit (EvLogError "Failed to decode JSON response: b'<html>'")
       (emit (EvRequest "get" Sample.module_url None) Sample.w_html)).
Proof.
  rewrite (@dispatch_unparseable_body_raises_request_error Sample.lib
             Sample.client Sample.module_url "get" None Sample.w_html 200
             "<html>").
  - vm_compute. reflexivity.
  - vm_compute. reflexivity.
  - vm_compute. reflexivity.
  - lia.
  - vm_compute. reflexivity.
Defined.

Lemma dispatch_transport_error_propagates_witness :
  (@MintHCM._request Sample.lib Sample.client Sample.module_url "get" None
     Sample.w_timeout).1 = Raise (OtherError "timed out").
Proof.
  rewrite (@dispatch_transport_error_propagates Sample.lib Sample.client
             Sample.module_url "get" None Sample.w_timeout "timed out").
  - reflexivity.
  - vm_compute. reflexivity.
  - vm_compute. reflexivity.
Defined.

Lemma dispatch_retry_is_fresh_request_witness :
  (@MintHCM._request Sample.lib Sample.client Sample.module_url "get" None
     Sample.w_401_once).1 = Ok Sample.record.
Proof.
  rewrite (@dispatch_retry_is_fresh_request Sample.lib Sample.client
             Sample.module_url "get" None Sample.w_401_once
             (@MintHCM._refresh_token Sample.lib Sample.client
                (emit (@request_event Sample.lib Sample.module_url "get" None)
                   Sample.w_401_once)).2).
  - vm_compute. reflexivity.
  - vm_compute. reflexivity.
  - vm_compute. reflexivity.
  - vm_compute. reflexivity.
  - vm_compute. reflexivity.
Defined.

Lemma dispatch_second_trigger_raises_authentication_error_witness :
  (@MintHCM._request Sample.lib Sample.client Sample.module_url "get" None
     Sample.w_401).1
  = Raise (AuthenticationError "authentication failed - token rejected"
             (Some 401) (JStr "")).
Proof.
  rewrite (@dispatch_second_trigger_raises_authentication_error Sample.lib
             Sample.client Sample.module_url "get" None Sample.w_401
             (@MintHCM._refresh_token Sample.lib Sample.client
                (emit (@request_event Sample.lib Sample.module_url "get" None)
                   Sample.w_401)).2).
  - vm_compute. reflexivity.
  - vm_compute. reflexivity.
  - vm_compute. reflexivity.
  - vm_compute. reflexivity.
  - vm_compute. reflexivity.
Defined.

Lemma dispatch_token_expired_refresh_failure_witness :
  exists e w1,
    @MintHCM._request Sample.lib Sample.client Sample.module_url "get" None
      Sample.w_expired_auth_down = (Raise e, w1)
    /\ is_MintHCMError e = true
    /\ List.length (requests (w_trace w1)) = 1%nat.
Proof.
  destruct (@dispatch_token_expired_refresh_failure Sample.lib Sample.client
              Sample.module_url "get" None Sample.w_expired_auth_down)
    as (e & w1 & Hrun & He & Htr & _).
  - vm_compute. reflexivity.
  - vm_compute. reflexivity.
  - vm_compute. reflexivity.
  - exists e, w1. split; [exact Hrun |]. split; [exact He |].
    rewrite Htr. reflexivity.
Defined.

Lemma wrappers_send_body_only_for_post_and_patch_witness :
  exists evs,
    extends Sample.w_ok
      (@MintHCM.delete Sample.lib Sample.client Sample.module_url
         Sample.w_ok).2 evs
    /\ (requests evs = [EvRequest "delete" Sample.module_url None]
        \/ requests evs = [EvRequest "delete" Sample.module_url None;
                           EvRequest "delete" Sample.module_url None]).
Proof.
  destruct (@wrappers_send_body_only_for_post_and_patch Sample.lib
              Sample.client Sample.module_url JNull Sample.w_ok
              (@MintHCM.delete Sample.lib Sample.client Sample.module_url
                 Sample.w_ok).2
              (@MintHCM.delete Sample.lib Sample.client Sample.module_url
                 Sample.w_ok).1) as (_ & Hdelete & _).
  apply Hdelete. vm_compute. reflexivity.
Defined.

Lemma refresh_success_persists_token_witness :
  w_file (@MintHCM._refresh_token Sample.lib Sample.client Sample.w_no_file).2
  = Some (Sample.dumps Sample.token).
Proof.
  destruct (@refresh_success_persists_token Sample.lib Sample.client
              Sample.w_no_file
              (@MintHCM._refresh_token Sample.lib Sample.client
                 Sample.w_no_file).2) as (token & Hauth & _ & Hfile & _).
  - vm_compute. reflexivity.
  - rewrite Hfile. injection Hauth as <-. reflexivity.
Defined.

Lemma refresh_failure_kinds_witness :
  w_file (@MintHCM._refresh_token Sample.lib Sample.client
            Sample.w_401_auth_down).2
  = Some (Sample.dumps Sample.token).
Proof.
  destruct (@refresh_failure_kinds Sample.lib Sample.client
              Sample.w_401_auth_down
              (@MintHCM._refresh_token Sample.lib Sample.client
                 Sample.w_401_auth_down).2
              (RequestError "failed to refresh token: connection refused"
                 None (JStr ""))) as (Hfile & _).
  - vm_compute. reflexivity.
  - rewrite Hfile. reflexivity.
Defined.

Lemma initialize_registers_logout_only_on_success_witness :
  w_atexit (@MintHCM.__init__ Sample.lib "id" "secret"
               "https://hcm.example/api/V8" "AccessToken.json" true
               Sample.w_no_file).2 = 1%nat
  /\ w_atexit (@MintHCM.__init__ Sample.lib "id" "secret"
               "https://hcm.example/api/V8" "AccessToken.json" true
               Sample.w_401_auth_down).2 = 1%nat
  /\ w_atexit (@MintHCM.__init__ Sample.lib "id" "secret"
               "https://hcm.example/api/V8" "" true
               Sample.w_401_auth_down).2 = 0%nat.
Proof.
  split; [|split].
  - rewrite (@initialize_registers_logout_only_on_success Sample.lib "id"
               "secret" "https://hcm.example/api/V8" "AccessToken.json" true
               Sample.w_no_file
               (@MintHCM.__init__ Sample.lib "id" "secret"
               "https://hcm.example/api/V8" "AccessToken.json" true
               Sample.w_no_file).2
               (@MintHCM.__init__ Sample.lib "id" "secret"
               "https://hcm.example/api/V8" "AccessToken.json" true
               Sample.w_no_file).1).
    + vm_compute. reflexivity.
    + vm_compute. reflexivity.
  - rewrite (@initialize_registers_logout_only_on_success Sample.lib "id"
               "secret" "https://hcm.example/api/V8" "AccessToken.json" true
               Sample.w_401_auth_down
               (@MintHCM.__init__ Sample.lib "id" "secret"
               "https://hcm.example/api/V8" "AccessToken.json" true
               Sample.w_401_auth_down).2
               (@MintHCM.__init__ Sample.lib "id" "secret"
               "https://hcm.example/api/V8" "AccessToken.json" true
               Sample.w_401_auth_down).1).
    + vm_compute. reflexivity.
    + vm_compute. reflexivity.
  - rewrite (@initialize_registers_logout_only_on_success Sample.lib "id"
               "secret" "https://hcm.example/api/V8" "" true
               Sample.w_401_auth_down
               (@MintHCM.__init__ Sample.lib "id" "secret"
               "https://hcm.example/api/V8" "" true
               Sample.w_401_auth_down).2
               (@MintHCM.__init__ Sample.lib "id" "secret"
               "https://hcm.example/api/V8" "" true
               Sample.w_401_auth_down).1).
    + vm_compute. reflexivity.
    + vm_compute. reflexivity.
Defined.

Lemma initialize_without_token_path_witness :
  w_file (@MintHCM.__init__ Sample.lib "id" "secret"
            "https://hcm.example/api/V8" "" false Sample.w_ok).2
  = Some (Sample.dumps Sample.token)
  /\ w_trace (@MintHCM.__init__ Sample.lib "id" "secret"
                "https://hcm.example/api/V8" "" false Sample.w_ok).2
     = [EvFetchToken "https://hcm.example/api/access_token" "id" "secret"].
Proof.
  destruct (@initialize_without_token_path Sample.lib "id" "secret"
              "https://hcm.example/api/V8" false Sample.w_ok
              (@MintHCM.__init__ Sample.lib "id" "secret"
                 "https://hcm.example/api/V8" "" false Sample.w_ok).2
              (@MintHCM.__init__ Sample.lib "id" "secret"
                 "https://hcm.example/api/V8" "" false Sample.w_ok).1)
    as (Hfile & Htr & _).
  - vm_compute. reflexivity.
  - split; [rewrite Hfile | rewrite Htr]; reflexivity.
Defined.

Lemma initialize_unreadable_token_file_witness :
  (exists message,
     (@MintHCM.__init__ Sample.lib "id" "secret"
        "https://hcm.example/api/V8" "AccessToken.json" true
        Sample.w_unreadable).1 = Raise (OSError message))
  /\ w_trace (@MintHCM.__init__ Sample.lib "id" "secret"
                "https://hcm.example/api/V8" "AccessToken.json" true
                Sample.w_unreadable).2 = [].
Proof.
  destruct (@initialize_unreadable_token_file Sample.lib "id" "secret"
              "https://hcm.example/api/V8" "AccessToken.json" true
              Sample.w_unreadable
              (@MintHCM.__init__ Sample.lib "id" "secret"
                 "https://hcm.example/api/V8" "AccessToken.json" true
                 Sample.w_unreadable).2
              (@MintHCM.__init__ Sample.lib "id" "secret"
                 "https://hcm.example/api/V8" "AccessToken.json" true
                 Sample.w_unreadable).1)
    as (Hraise & Htr & _).
  - reflexivity.
  - reflexivity.
  - vm_compute. reflexivity.
  - split; [exact Hraise | rewrite Htr; reflexivity].
Defined.

Lemma initialize_restores_persisted_token_witness :
  exists w2,
    @MintHCM.__init__ Sample.lib "id" "secret" "https://hcm.example/api/V8"
      "AccessToken.json" false
      (@MintHCM.__init__ Sample.lib "id" "secret"
         "https://hcm.example/api/V8" "AccessToken.json" false
         Sample.w_no_file).2
    = (Ok (MintHCM.mk "https://hcm.example/api/V8" "id" "secret"
             "AccessToken.json" false
             ("Mozilla/5.0 (Windows NT 10.0; Win64; x64) AppleWebKit/537.36 "
              ++ "(KHTML, like Gecko) Chrome/97.0.4692.99 Safari/537.36")),
       w2)
    /\ w_trace w2
       = [EvFetchToken "https://hcm.example/api/access_token" "id" "secret"]
    /\ w_token w2 = Sample.token.
Proof.
  destruct (@initialize_restores_persisted_token Sample.lib "id" "secret"
              "https://hcm.example/api/V8" "AccessToken.json" false
              Sample.w_no_file
              (@MintHCM.__init__ Sample.lib "id" "secret"
                 "https://hcm.example/api/V8" "AccessToken.json" false
                 Sample.w_no_file).2
              (MintHCM.mk "https://hcm.example/api/V8" "id" "secret"
                 "AccessToken.json" false
                 ("Mozilla/5.0 (Windows NT 10.0; Win64; x64) AppleWebKit/537.36 "
                  ++ "(KHTML, like Gecko) Chrome/97.0.4692.99 Safari/537.36")))
    as (_ & w2 & Hrun & Htr & Htok).
  - reflexivity.
  - reflexivity.
  - vm_compute. reflexivity.
  - vm_compute. discriminate.
  - vm_compute. reflexivity.
  - vm_compute. reflexivity.
  - exists w2. split; [exact Hrun |].
    split; [rewrite Htr | rewrite Htok]; vm_compute; reflexivity.
Defined.

Lemma login_after_logout_fetches_witness :
  exists r w2,
    @MintHCM._login Sample.lib Sample.client
      (@MintHCM._logout Sample.lib Sample.client Sample.w_ok).2 = (r, w2)
    /\ w_trace w2
       = [EvRequest "post" "https://hcm.example/api/V8/logout"
            (Some (Sample.dumps (JObj [("data", JNull)])));
          EvFetchToken "https://hcm.example/api/access_token" "id" "secret"].
Proof.
  destruct (@login_after_logout_fetches Sample.lib Sample.client Sample.w_ok
              (@MintHCM._logout Sample.lib Sample.client Sample.w_ok).2)
    as (_ & r & w2 & Hrun & Htr).
  - reflexivity.
  - reflexivity.
  - reflexivity.
  - vm_compute. reflexivity.
  - exists r, w2. split; [exact Hrun |]. rewrite Htr. vm_compute. reflexivity.
Defined.

Lemma error_text_omits_zero_code_witness :
  MintHCMError.__str__ "request failed" (Some 404) "boom"
  = "MintHCM API Error (404): request failed - boom".
Proof.
  destruct (error_text_omits_zero_code "request failed" "boom" 404)
    as (_ & Hcode & _).
  rewrite Hcode by lia. vm_compute. reflexivity.
Defined.

Lemma query_translates_iff_filters_well_formed_witness :
  exists e,
    @PyModule.get Sample.lib Sample.employees None None "and"
      [("age", Comparison Sample.between_one)] Sample.w_ok
    = (Raise e, Sample.w_ok)
    /\ is_MintHCMError e = false.
Proof.
  destruct (@query_translates_iff_filters_well_formed Sample.lib
              Sample.employees None None "and"
              [("age", Comparison Sample.between_one)] Sample.w_ok)
    as (_ & Hbad).
  apply (Hbad "age" (Comparison Sample.between_one)).
  - constructor.
  - vm_compute. reflexivity.
Defined.

Lemma query_raises_error_of_first_bad_filter_witness :
  @PyModule.get Sample.lib Sample.employees None None "and"
    [("status", Plain (PyStr "active"));
     ("age", Comparison Sample.between_one)] Sample.w_ok
  = (Raise IndexError, Sample.w_ok)
  /\ @PyModule.get Sample.lib Sample.employees None None "and"
       [("age", Comparison Sample.no_operator)] Sample.w_ok
     = (Raise (KeyError (PyStr "operator")), Sample.w_ok)
  /\ exists message,
       @PyModule.get Sample.lib Sample.employees None None "and"
         [("age", Comparison Sample.between_number)] Sample.w_ok
       = (Raise (AttributeError message), Sample.w_ok).
Proof.
  split; [|split].
  - destruct (@query_raises_error_of_first_bad_filter Sample.lib
                Sample.employees None None "and" "age" Sample.between_one
                [("status", Plain (PyStr "active"))] [] Sample.w_ok)
      as (_ & Hbetween & _).
    + repeat constructor.
    + destruct Hbetween as (_ & _ & Hindex).
      * vm_compute. reflexivity.
      * apply (Hindex "18"); vm_compute; reflexivity.
  - destruct (@query_raises_error_of_first_bad_filter Sample.lib
                Sample.employees None None "and" "age" Sample.no_operator
                [] [] Sample.w_ok) as (Hmissing & _).
    + constructor.
    + apply Hmissing. vm_compute. reflexivity.
  - destruct (@query_raises_error_of_first_bad_filter Sample.lib
                Sample.employees None None "and" "age" Sample.between_number
                [] [] Sample.w_ok) as (_ & Hbetween & _).
    + constructor.
    + destruct Hbetween as (_ & Hattr & _).
      * vm_compute. reflexivity.
      * apply (Hattr (PyInt 18)); [vm_compute; reflexivity |].
        intros s. discriminate.
Defined.

Lemma between_ignores_further_values_witness :
  get_url "https://hcm.example/api/V8" "Employees" None None "and"
    [("age", Comparison Sample.between_three)]
  = get_url "https://hcm.example/api/V8" "Employees" None None "and"
      [("age", Comparison Sample.between_18_65)].
Proof.
  destruct (between_ignores_further_values "https://hcm.example/api/V8"
              "Employees" "and" None None "age" "18" "65" "99"
              Sample.between_three Sample.between_18_65 [] [])
    as (_ & Hsame).
  - vm_compute. reflexivity.
  - vm_compute. reflexivity.
  - vm_compute. reflexivity.
  - vm_compute. reflexivity.
  - reflexivity.
  - reflexivity.
  - exact Hsame.
Defined.

Lemma query_url_in_filter_order_witness :
  exists clauses,
    clauses = ["&filter[status][EQ]=active"; "&filter[age][GT]=30"]
    /\ "https://hcm.example/api/V8/module/Employees?fields[Employees]=name,age&filter[operator]=or&filter[status][EQ]=active&filter[age][GT]=30&sort=-name"
       = ("https://hcm.example/api/V8" ++ "/module/" ++ "Employees"
          ++ "?fields[Employees]=name,age" ++ "&")
         ++ ("filter[operator]=" ++ "or"
             ++ fold_right String.append "" clauses)
         ++ "&sort=-name".
Proof.
  destruct (query_url_in_filter_order "https://hcm.example/api/V8"
              "Employees" "or"
              "https://hcm.example/api/V8/module/Employees?fields[Employees]=name,age&filter[operator]=or&filter[status][EQ]=active&filter[age][GT]=30&sort=-name"
              (Some ["name"; "age"]) (Some "name")
              [("status", Plain (PyStr "active"));
               ("age", Comparison Sample.above_30)])
    as (clauses & Hclauses & Hurl).
  - vm_compute. reflexivity.
  - exists clauses. split; [|exact Hurl].
    inversion Hclauses as [|fv1 c1 l1 cs1 Hc1 Hrest1]; subst.
    inversion Hrest1 as [|fv2 c2 l2 cs2 Hc2 Hrest2]; subst.
    inversion Hrest2; subst.
    vm_compute in Hc1, Hc2. injection Hc1 as <-. injection Hc2 as <-.
    reflexivity.
Defined.

Lemma relationship_name_ignores_case_witness :
  @PyModule.get_relationship Sample.lib Sample.employees "7" "Contacts"
  = @PyModule.get_relationship Sample.lib Sample.employees "7" "CONTACTS".
Proof.
  destruct (@relationship_name_ignores_case Sample.lib Sample.employees "7"
              "Contacts" "CONTACTS" "9") as (_ & _ & Hsame).
  apply Hsame. vm_compute. reflexivity.
Defined.

Lemma update_patches_type_id_attributes_witness :
  exists evs,
    extends Sample.w_ok
      (@PyModule.update Sample.lib Sample.employees "7"
         [("name", JStr "Jane")] Sample.w_ok).2 evs
    /\ (requests evs
        = [EvRequest "patch" Sample.module_url
             (Some (Sample.dumps
                      (JObj [("data",
                              JObj [("type", JStr "Employees");
                                    ("id", JStr "7");
                                    ("attributes",
                                     JObj [("name", JStr "Jane")])])])))]
        \/ requests evs
           = [EvRequest "patch" Sample.module_url
                (Some (Sample.dumps
                         (JObj [("data",
                                 JObj [("type", JStr "Employees");
                                       ("id", JStr "7");
                                       ("attributes",
                                        JObj [("name", JStr "Jane")])])])));
              EvRequest "patch" Sample.module_url
                (Some (Sample.dumps
                         (JObj [("data",
                                 JObj [("type", JStr "Employees");
                                       ("id", JStr "7");
                                       ("attributes",
                                        JObj [("name", JStr "Jane")])])])))]).
Proof.
  destruct (@update_patches_type_id_attributes Sample.lib Sample.employees
              "7" [("name", JStr "Jane")] Sample.w_ok
              (@PyModule.update Sample.lib Sample.employees "7"
                 [("name", JStr "Jane")] Sample.w_ok).2
              (@PyModule.update Sample.lib Sample.employees "7"
                 [("name", JStr "Jane")] Sample.w_ok).1)
    as (_ & evs & Hext & Hreq).
  - vm_compute. reflexivity.
  - exists evs. split; [exact Hext | exact Hreq].
Defined.
